(** * telegram_gpt_bot_ocr: conversation store, text router and report rendering

    A shallow embedding of [src/telegram_gpt_bot_ocr.py].  Python objects
    that the program shares by reference (turn dicts, deques, lists) live in
    an explicit heap; the handlers are written in a state-and-exception
    monad over the process state, so that [try]/[except] and the order of
    side effects read as in the source.  The development covers the
    conversation store, [build_messages], [call_openai], [fetch_url_text],
    [generate_pdf] and the [start] and text handlers; the photo and document
    handlers reach the store through [push_user] only and are left out. *)

From stdpp Require Import gmap list strings.
From Stdlib Require Import NArith ZArith DecimalString DecimalZ.

Open Scope N_scope.

(** ** Python [str]: a sequence of Unicode code points *)

Abbreviation str := (list N).

(** Literals are written as in the source file and decoded from UTF-8. *)
Fixpoint utf8_decode (bs : list N) : str :=
  match bs with
  | [] => []
  | b :: r =>
    if b <? 128 then b :: utf8_decode r
    else if b <? 224 then
      match r with
      | c1 :: r' => ((b - 192) * 64 + (c1 - 128)) :: utf8_decode r'
      | _ => []
      end
    else if b <? 240 then
      match r with
      | c1 :: c2 :: r' =>
          ((b - 224) * 4096 + (c1 - 128) * 64 + (c2 - 128)) :: utf8_decode r'
      | _ => []
      end
    else
      match r with
      | c1 :: c2 :: c3 :: r' =>
          ((b - 240) * 262144 + (c1 - 128) * 4096 + (c2 - 128) * 64 + (c3 - 128))
            :: utf8_decode r'
      | _ => []
      end
  end.

Definition py (s : string) : str :=
  utf8_decode (map Ascii.N_of_ascii (String.list_ascii_of_string s)).

Global Arguments py : simpl never.

Definition nl : str := [10].

(** [s.startswith(prefix)] *)
Fixpoint startswith (s prefix : str) {struct prefix} : bool :=
  match prefix, s with
  | [], _ => true
  | p :: ps, c :: cs => (c =? p) && startswith cs ps
  | _ :: _, [] => false
  end.

(** [s.endswith(suffix)] *)
Definition endswith (s suffix : str) : bool :=
  startswith (reverse s) (reverse suffix).

(** [sub in s] *)
Fixpoint contains (s sub : str) : bool :=
  startswith s sub ||
  match s with
  | [] => false
  | _ :: cs => contains cs sub
  end.

(** The code points for which [str.isspace] holds; [strip()] without an
    argument removes exactly these. *)
Definition isspace (c : N) : bool :=
  ((9 <=? c) && (c <=? 13)) || ((28 <=? c) && (c <=? 32))
  || (c =? 133) || (c =? 160) || (c =? 5760)
  || ((8192 <=? c) && (c <=? 8202))
  || (c =? 8232) || (c =? 8233) || (c =? 8239) || (c =? 8287) || (c =? 12288).

Fixpoint lstrip (s : str) : str :=
  match s with
  | [] => []
  | c :: r => if isspace c then lstrip r else s
  end.

Definition rstrip (s : str) : str := reverse (lstrip (reverse s)).

(** [s.strip()] *)
Definition strip (s : str) : str := rstrip (lstrip s).

(** [s.split(" ", 1)]: at most one split, at the first space. *)
Fixpoint split1 (s : str) : list str :=
  match s with
  | [] => [[]]
  | c :: r =>
    if c =? 32 then [[]; r]
    else match split1 r with
         | h :: t => (c :: h) :: t
         | [] => [[c]]
         end
  end.

(** [str(n)] for an [int], as an f-string interpolates it. *)
Definition str_of_int (n : Z) : str :=
  map Ascii.N_of_ascii (String.list_ascii_of_string (NilZero.string_of_int (Z.to_int n))).

(** [os.path.join(a, b)] on a POSIX system. *)
Definition path_join (a b : str) : str :=
  if startswith b (py "/") then b
  else if bool_decide (a = []) || endswith a (py "/") then a ++ b
  else a ++ py "/" ++ b.

(** Truthiness of a [str]: non-empty. *)
Definition truthy (s : str) : bool :=
  match s with [] => false | _ => true end.

(** ** Data model *)

(** A turn is the dict [{"role": ..., "content": ...}]. *)
Record turn := Turn { role : str; content : str }.

(** References into the heap. *)
Abbreviation loc := nat.

(** Heap objects: the turn dicts, the per-user deques and the lists that
    [build_messages] creates.  A deque and a list hold references. *)
Inductive obj :=
| ODict (t : turn)
| ODeque (items : list loc) (maxlen : nat)
| OList (items : list loc).

(** The inbound message, as far as the handlers read it:
    [m.from_user.id] and [m.text]. *)
Record message := Message { from_user_id : Z; text : str }.

(** What a generated report file holds.  The PDF is laid out by reportlab;
    only what is drawn on it is recorded: the three heading strings, the
    content whose lines are laid out page by page, and the watermark. *)
Inductive artifact :=
| TextFile (contents : str)
| PdfDocument (heading : list str) (body : str) (watermark : str).

(** Calls that leave the process. *)
Inductive event :=
| Reply (m : message) (body : str)
| Completion (model : str) (messages : list turn) (max_tokens : nat)
| HttpGet (url : str)
| Makedirs (path : str).

Inductive exn :=
| IndexError | KeyError | TypeError | ServiceError
| AttributeError | ValueError | UnicodeEncodeError | OSError.

Record world := World {
  heap : list obj;
  user_context : gmap Z loc;
  files : gmap str artifact;
  trace : list event
}.

Definition init : world := World [] ∅ ∅ [].

(** ** The monad of handlers: state and exceptions *)

Inductive result (A : Type) :=
| Ok (a : A)
| Raise (e : exn).
Arguments Ok {A} a.
Arguments Raise {A} e.

Definition M (A : Type) : Type := world → result A * world.

Global Instance M_ret : MRet M := λ A a w, (Ok a, w).

Global Instance M_bind : MBind M := λ A B f m w,
  match m w with
  | (Ok a, w') => f a w'
  | (Raise e, w') => (Raise e, w')
  end.

Definition raise {A} (e : exn) : M A := λ w, (Raise e, w).

(** [try: body / except Exception: handler] *)
Definition try_except {A} (body : M A) (handler : M A) : M A := λ w,
  match body w with
  | (Ok a, w') => (Ok a, w')
  | (Raise _, w') => handler w'
  end.

Definition alloc (o : obj) : M loc := λ w,
  (Ok (length (heap w)),
   World (heap w ++ [o]) (user_context w) (files w) (trace w)).

Definition load (l : loc) : M obj := λ w,
  match heap w !! l with
  | Some o => (Ok o, w)
  | None => (Raise TypeError, w)
  end.

Definition store (l : loc) (o : obj) : M unit := λ w,
  (Ok tt, World (<[l := o]> (heap w)) (user_context w) (files w) (trace w)).

Definition emit (e : event) : M unit := λ w,
  (Ok tt, World (heap w) (user_context w) (files w) (trace w ++ [e])).

Definition write_file (path : str) (a : artifact) : M unit := λ w,
  (Ok tt, World (heap w) (user_context w) (<[path := a]> (files w)) (trace w)).

(** [os.makedirs(path, exist_ok=True)]: the empty path names no directory,
    and the call raises. *)
Definition makedirs (path : str) : M unit :=
  if bool_decide (path = []) then raise OSError else emit (Makedirs path).

(** A surrogate code point, U+D800 to U+DFFF: UTF-8 does not encode it. *)
Definition is_surrogate (c : N) : bool := (55296 <=? c) && (c <=? 57343).

Definition has_surrogate (s : str) : bool := existsb is_surrogate s.

(** [open(path, "w", encoding="utf-8")]: the file is there, empty. *)
Definition open_text (path : str) : M unit := write_file path (TextFile []).

(** [f.write(s)] on the file opened at [path]: a text with a surrogate
    raises and leaves what was written before. *)
Definition f_write (path : str) (s : str) : M unit :=
  if has_surrogate s then raise UnicodeEncodeError
  else λ w,
    match files w !! path with
    | Some (TextFile written) =>
        (Ok tt, World (heap w) (user_context w)
                  (<[path := TextFile (written ++ s)]> (files w)) (trace w))
    | _ => (Raise ValueError, w)
    end.

(** ** deque and list objects *)

(** [deque.append(x)] with a [maxlen]: the item is added on the right and,
    when the deque is then longer than [maxlen], one item is dropped on the
    left. *)
Definition deque_push {A} (items : list A) (maxlen : nat) (x : A) : list A :=
  let items' := items ++ [x] in
  if (maxlen <? length items')%nat then drop 1 items' else items'.

Definition deque_append (d : loc) (x : loc) : M unit :=
  o ← load d;
  match o with
  | ODeque items maxlen => store d (ODeque (deque_push items maxlen x) maxlen)
  | _ => raise TypeError
  end.

(** [deque.clear()] *)
Definition deque_clear (d : loc) : M unit :=
  o ← load d;
  match o with
  | ODeque _ maxlen => store d (ODeque [] maxlen)
  | _ => raise TypeError
  end.

(** [list(d)]: a new list with the deque's items. *)
Definition list_of_deque (d : loc) : M loc :=
  o ← load d;
  match o with
  | ODeque items _ => alloc (OList items)
  | _ => raise TypeError
  end.

(** [a + b] on lists: a new list. *)
Definition list_add (a b : loc) : M loc :=
  oa ← load a;
  ob ← load b;
  match oa, ob with
  | OList xs, OList ys => alloc (OList (xs ++ ys))
  | _, _ => raise TypeError
  end.

(** ** The conversation store *)

(** [user_context[uid]] *)
Definition user_context_getitem (uid : Z) : M loc := λ w,
  match user_context w !! uid with
  | Some d => (Ok d, w)
  | None => (Raise KeyError, w)
  end.

(** [uid in user_context] *)
Definition user_context_contains (uid : Z) : M bool := λ w,
  (Ok (bool_decide (is_Some (user_context w !! uid))), w).

(** [user_context[uid] = d] *)
Definition user_context_setitem (uid : Z) (d : loc) : M unit := λ w,
  (Ok tt, World (heap w) (<[uid := d]> (user_context w)) (files w) (trace w)).

Definition ensure_context (uid : Z) : M unit :=
  present ← user_context_contains uid;
  if negb present then
    d ← alloc (ODeque [] 24);
    user_context_setitem uid d
  else mret tt.

Definition push_user (uid : Z) (text : str) : M unit :=
  ensure_context uid;;
  d ← user_context_getitem uid;
  t ← alloc (ODict (Turn (py "user") text));
  deque_append d t.

Definition push_assistant (uid : Z) (text : str) : M unit :=
  ensure_context uid;;
  d ← user_context_getitem uid;
  t ← alloc (ODict (Turn (py "assistant") text));
  deque_append d t.

Definition SYSTEM_PROMPT : str :=
  py "Bạn là trợ lý chuyên gia giám định bảo hiểm xe cơ giới cho Mr.P. "
  ++ py "Trả lời ngắn gọn, chính xác, nêu nguyên nhân, mức độ lỗi, tài liệu cần thu thập, và bước xử lý tiếp theo. "
  ++ py "Sử dụng tiếng Việt. Trả lời thẳng, không vòng vo.".

Definition build_messages (uid : Z) (system_prompt : str) : M loc :=
  ensure_context uid;;
  s ← alloc (ODict (Turn (py "system") system_prompt));
  l1 ← alloc (OList [s]);
  d ← user_context_getitem uid;
  l2 ← list_of_deque d;
  list_add l1 l2.

(** ** Configuration and collaborators *)

(** The module-level configuration, read from the environment at start-up;
    [canvas] tells whether reportlab could be imported. *)
Record config := Config {
  OPENAI_MODEL : str;
  MEDIA_DIR : str;
  WEB_SCRAPE_ENABLED : bool;
  WATERMARK_TEXT : str;
  canvas : bool
}.

(** The services outside the program.  [create] is
    [openai.ChatCompletion.create(...)["choices"][0]["message"]["content"]],
    called with temperature 0.2, and [get_text] is the page text that
    requests and BeautifulSoup extract; [None] stands for any exception they
    raise.  [clock] is [int(time.time())].  [canvas_saves] tells whether
    reportlab draws and saves the given document at the given path without
    raising. *)
Record services := Services {
  create : str → list turn → nat → option str;
  get_text : str → option str;
  clock : Z;
  canvas_saves : str → artifact → bool
}.

(** [seq[i]] *)
Definition getitem {A} (l : list A) (i : nat) : M A :=
  match l !! i with
  | Some a => mret a
  | None => raise IndexError
  end.

Definition load_turn (x : loc) : M turn :=
  o ← load x;
  match o with
  | ODict t => mret t
  | _ => raise TypeError
  end.

Fixpoint load_turns (xs : list loc) : M (list turn) :=
  match xs with
  | [] => mret []
  | x :: r => t ← load_turn x; ts ← load_turns r; mret (t :: ts)
  end.

(** [bot.reply_to(m, text)]: the reply is taken to be delivered. *)
Definition reply_to (m : message) (body : str) : M unit := emit (Reply m body).

Section Bot.

(** [str.lower]: the case table of the Python runtime. *)
Variable lower : str → str.
Variable cfg : config.
Variable ext : services.

Definition call_openai (messages : loc) (max_tokens : nat) : M str :=
  o ← load messages;
  match o with
  | OList xs =>
      ts ← load_turns xs;
      emit (Completion (OPENAI_MODEL cfg) ts max_tokens);;
      match create ext (OPENAI_MODEL cfg) ts max_tokens with
      | Some c => mret (strip c)
      | None => raise ServiceError
      end
  | _ => raise TypeError
  end.

Definition fetch_url_text (url : str) : M str :=
  if negb (WEB_SCRAPE_ENABLED cfg) then mret []
  else
    try_except
      (emit (HttpGet url);;
       match get_text ext url with
       | Some texts => mret (take 3000 texts)
       | None => raise ServiceError
       end)
      (mret []).

Definition generate_pdf (uid : Z) (title : str) (content : str) : M str :=
  makedirs (MEDIA_DIR cfg);;
  let fname :=
    py "report_" ++ str_of_int uid ++ py "_" ++ str_of_int (clock ext) ++ py ".pdf" in
  let fpath := path_join (MEDIA_DIR cfg) fname in
  if canvas cfg then
    let doc :=
      PdfDocument
        [py "BÁO CÁO GIÁM ĐỊNH - GIC Assistant";
         py "Người dùng Telegram ID: " ++ str_of_int uid;
         py "Tiêu đề: " ++ title]
        content (WATERMARK_TEXT cfg) in
    (if canvas_saves ext fpath doc then write_file fpath doc else raise ServiceError);;
    mret fpath
  else
    let txt := fpath ++ py ".txt" in
    open_text txt;;
    f_write txt (py "BÁO CÁO GIÁM ĐỊNH" ++ nl ++ nl);;
    f_write txt (py "Người dùng: " ++ str_of_int uid ++ nl
                 ++ py "Tiêu đề: " ++ title ++ nl ++ nl);;
    f_write txt content;;
    f_write txt (nl ++ nl ++ WATERMARK_TEXT cfg);;
    mret txt.

(** ** Handlers *)

Definition cmd_start (m : message) : M unit :=
  ensure_context (from_user_id m);;
  d ← user_context_getitem (from_user_id m);
  deque_clear d;;
  reply_to m (py "Chào! Gửi ảnh hiện trường, PDF biên bản hoặc mô tả vụ việc để tôi phân tích. Gõ 'tạo báo cáo' để xuất PDF.").

Definition handle_text (m : message) : M unit :=
  let uid := from_user_id m in
  let text := strip (text m) in
  if startswith (lower text) (py "fetch ") then
    rest ← getitem (split1 text) 1;
    let url := strip rest in
    reply_to m (py "Đang fetch nội dung từ: " ++ url ++ py " (nếu chức năng bật)");;
    snippet ← fetch_url_text url;
    if truthy snippet then
      reply_to m (py "Trích xuất nội dung (rút gọn):" ++ nl ++ take 800 snippet);;
      push_user uid (py "[WEB] " ++ snippet)
    else
      reply_to m (py "Không lấy được nội dung. Chức năng crawl có thể tắt hoặc URL không cho phép.")
  else if startswith (lower text) (py "trich xuat")
          || startswith (lower text) (py "trích xuất") then
    reply_to m (py "Bắt đầu trích xuất PDF (nếu có).");;
    push_user uid (py "[Yêu cầu trích xuất PDF] " ++ text);;
    msgs ← build_messages uid SYSTEM_PROMPT;
    try_except
      (ans ← call_openai msgs 700;
       push_assistant uid ans;;
       reply_to m ans)
      (reply_to m (py "Lỗi khi trích xuất."))
  else if startswith (lower text) (py "tạo báo cáo")
          || contains (lower text) (py "tạo báo cáo")
          || contains (lower text) (py "báo cáo") then
    reply_to m (py "Đang tạo báo cáo PDF...");;
    msgs ← build_messages uid SYSTEM_PROMPT;
    try_except
      (analysis ← call_openai msgs 900;
       push_assistant uid analysis;;
       pdf ← generate_pdf uid (py "Báo cáo từ Bot") analysis;
       reply_to m (py "Báo cáo tạo xong: " ++ pdf))
      (reply_to m (py "Lỗi khi tạo báo cáo."))
  else
    push_user uid text;;
    msgs ← build_messages uid SYSTEM_PROMPT;
    try_except
      (ans ← call_openai msgs 700;
       push_assistant uid ans;;
       reply_to m ans)
      (reply_to m (py "Lỗi khi gọi AI. Thử lại sau.")).

End Bot.

(** ** A concrete runtime, to run the handlers on given messages *)

(** [str.lower] on the letters of the Vietnamese alphabet: Basic Latin and
    the accented capitals of Latin-1, Latin Extended-A and B and Latin
    Extended Additional.  Other code points are left as they are. *)
Definition lower_cp (c : N) : N :=
  if (65 <=? c) && (c <=? 90) then c + 32
  else if (192 <=? c) && (c <=? 222) && negb (c =? 215) then c + 32
  else if (256 <=? c) && (c <=? 303) && N.even c then c + 1
  else if (330 <=? c) && (c <=? 375) && N.even c then c + 1
  else if (c =? 416) || (c =? 431) then c + 1
  else if (7840 <=? c) && (c <=? 7929) && N.even c then c + 1
  else c.

Definition lower_vi (s : str) : str := map lower_cp s.

Definition cfg0 : config :=
  Config (py "gpt-5") (py "/tmp/telegram_media") false (py "Mr.P 0922372220") false.

(** A completion service that is down, and one that always answers. *)
Definition ext_down : services :=
  Services (λ _ _ _, None) (λ _, None) 1700000000 (λ _ _, true).

Definition ext_up (answer page : str) : services :=
  Services (λ _ _ _, Some answer) (λ _, Some page) 1700000000 (λ _ _, true).

(** ** Reading the store *)

Definition read_turn (h : list obj) (x : loc) : option turn :=
  match h !! x with
  | Some (ODict t) => Some t
  | _ => None
  end.

Definition turns_of (h : list obj) (xs : list loc) : list turn :=
  omap (read_turn h) xs.

(** The turns of a user's history, oldest first; a user without a deque has
    none. *)
Definition history (w : world) (uid : Z) : list turn :=
  match user_context w !! uid with
  | Some d =>
      match heap w !! d with
      | Some (ODeque xs _) => turns_of (heap w) xs
      | _ => []
      end
  | None => []
  end.

(** The turns a list object holds. *)
Definition list_turns (w : world) (l : loc) : list turn :=
  match heap w !! l with
  | Some (OList xs) => turns_of (heap w) xs
  | _ => []
  end.

(** Any in-place change of the list object at [l] ([append], [pop],
    [clear], item assignment, [sort], ...) replaces its items. *)
Definition list_mutate (l : loc) (f : list loc → list loc) : M unit :=
  o ← load l;
  match o with
  | OList xs => store l (OList (f xs))
  | _ => raise TypeError
  end.

(** [seq[i]["content"] = c]: an assignment into the dict that item [i] of
    the list at [l] refers to. *)
Definition list_item_set_content (l : loc) (i : nat) (c : str) : M unit :=
  o ← load l;
  match o with
  | OList xs =>
      x ← getitem xs i;
      t ← load_turn x;
      store x (ODict (Turn (role t) c))
  | _ => raise TypeError
  end.

(** One call of the store's append operation. *)
Inductive append_call :=
| PushUser (text : str)
| PushAssistant (text : str).

Definition appended (c : append_call) : turn :=
  match c with
  | PushUser text => Turn (py "user") text
  | PushAssistant text => Turn (py "assistant") text
  end.

Definition do_append (uid : Z) (c : append_call) : M unit :=
  match c with
  | PushUser text => push_user uid text
  | PushAssistant text => push_assistant uid text
  end.

Fixpoint do_appends (uid : Z) (cs : list append_call) : M unit :=
  match cs with
  | [] => mret tt
  | c :: r => do_append uid c;; do_appends uid r
  end.

(** ** The store invariant *)

Definition points_to (h : list obj) (x : loc) (t : turn) : Prop :=
  h !! x = Some (ODict t).

Definition deque_ok (h : list obj) (d : loc) : Prop :=
  ∃ xs, h !! d = Some (ODeque xs 24) ∧ (length xs ≤ 24)%nat
        ∧ Forall (λ x, ∃ t, points_to h x t) xs.

(** Every user's entry refers to a deque of capacity 24 that holds at most
    24 turn dicts, and no two users share a deque. *)
Record wf (w : world) : Prop := {
  wf_deque : ∀ uid d, user_context w !! uid = Some d → deque_ok (heap w) d;
  wf_inj : ∀ u1 u2 d,
      user_context w !! u1 = Some d → user_context w !! u2 = Some d → u1 = u2
}.

(** Two states that differ in neither replies, collaborator calls nor files. *)
Definition same_io (w w' : world) : Prop :=
  trace w' = trace w ∧ files w' = files w.

(** The last [n] items of a list, in their order. *)
Definition last_n {A} (n : nat) (l : list A) : list A :=
  drop (length l - n) l.

(** ** The branch conditions of [handle_text], in source order

    Each is read on [text = m.text.strip()]. *)

Section Guards.

Variable lower : str → str.

Definition fetch_guard (text : str) : bool :=
  startswith (lower text) (py "fetch ").

Definition extract_guard (text : str) : bool :=
  startswith (lower text) (py "trich xuat")
  || startswith (lower text) (py "trích xuất").

Definition report_guard (text : str) : bool :=
  startswith (lower text) (py "tạo báo cáo")
  || contains (lower text) (py "tạo báo cáo")
  || contains (lower text) (py "báo cáo").

(** A message that reaches the extraction branch. *)
Definition extract_request (m : message) : Prop :=
  fetch_guard (strip (text m)) = false
  ∧ extract_guard (strip (text m)) = true.

(** A message that reaches the report branch. *)
Definition report_request (m : message) : Prop :=
  fetch_guard (strip (text m)) = false
  ∧ extract_guard (strip (text m)) = false
  ∧ report_guard (strip (text m)) = true.

(** A message that reaches the last branch. *)
Definition plain_text (m : message) : Prop :=
  fetch_guard (strip (text m)) = false
  ∧ extract_guard (strip (text m)) = false
  ∧ report_guard (strip (text m)) = false.

End Guards.

(** What [fetch_url_text] returns, and the request it makes. *)
Definition fetched (cfg : config) (ext : services) (url : str) : str :=
  if WEB_SCRAPE_ENABLED cfg then
    match get_text ext url with
    | Some texts => take 3000 texts
    | None => []
    end
  else [].

Definition fetch_events (cfg : config) (url : str) : list event :=
  if WEB_SCRAPE_ENABLED cfg then [HttpGet url] else [].

Definition is_completion (e : event) : bool :=
  match e with
  | Completion _ _ _ => true
  | _ => false
  end.

(** Where [generate_pdf] puts the report of a user, and what the plain-text
    report holds. *)
Definition report_path (cfg : config) (ext : services) (uid : Z) : str :=
  path_join (MEDIA_DIR cfg)
    (py "report_" ++ str_of_int uid ++ py "_" ++ str_of_int (clock ext) ++ py ".pdf").

Definition report_text (cfg : config) (uid : Z) (title content : str) : str :=
  (py "BÁO CÁO GIÁM ĐỊNH" ++ nl ++ nl)
  ++ (py "Người dùng: " ++ str_of_int uid ++ nl
      ++ py "Tiêu đề: " ++ title ++ nl ++ nl)
  ++ content
  ++ (nl ++ nl ++ WATERMARK_TEXT cfg).

Definition report_file (cfg : config) (ext : services) (uid : Z)
    (title content : str) : str * artifact :=
  if canvas cfg then
    (report_path cfg ext uid,
     PdfDocument
       [py "BÁO CÁO GIÁM ĐỊNH - GIC Assistant";
        py "Người dùng Telegram ID: " ++ str_of_int uid;
        py "Tiêu đề: " ++ title]
       content (WATERMARK_TEXT cfg))
  else
    (report_path cfg ext uid ++ py ".txt",
     TextFile (report_text cfg uid title content)).

(** Whether [generate_pdf] gets through: the directory can be made, and
    reportlab saves the document or, without reportlab, every text written
    can be encoded. *)
Definition render_ok (cfg : config) (ext : services) (uid : Z)
    (title content : str) : bool :=
  negb (bool_decide (MEDIA_DIR cfg = []))
  && (if canvas cfg then
        canvas_saves ext (report_file cfg ext uid title content).1
          (report_file cfg ext uid title content).2
      else
        negb (has_surrogate title) && negb (has_surrogate content)
        && negb (has_surrogate (WATERMARK_TEXT cfg))).

(** The directory event of [generate_pdf], if the directory can be made. *)
Definition made_dirs (cfg : config) : list event :=
  if bool_decide (MEDIA_DIR cfg = []) then [] else [Makedirs (MEDIA_DIR cfg)].

(** ** Sample inputs *)

(** The configuration with web fetching switched on. *)
Definition cfg_web : config :=
  Config (py "gpt-5") (py "/tmp/telegram_media") true (py "Mr.P 0922372220") false.

Definition fetch_example : message := Message 7 (py "fetch http://example.com").

(** A fetch command that also holds the report keyword. *)
Definition fetch_report : message := Message 7 (py "Fetch http://example.com/báo cáo").

Definition report_example : message := Message 7 (py "Tạo báo cáo giúp tôi").

(** The fetch keyword with nothing but whitespace behind it. *)
Definition fetch_blank : message := Message 7 (py "fetch  ").


(** A page of 801 letters. *)
Definition long_page : str := replicate 801 97.

(** Twenty-five appends, user and assistant turns in alternation. *)
Definition appends25 : list append_call :=
  flat_map (λ i, [PushUser (str_of_int (Z.of_nat i)); PushAssistant (py "ok")]) (seq 0 12)
  ++ [PushUser (py "last")].

(** A store in which user 7 already has one turn. *)
Definition one_turn : world := (push_user 7 (py "xin chào") init).2.

(** ** The photo and document handlers

    Both save the received bytes under [MEDIA_DIR], which is taken here to
    name a directory that can be made.  The path of a photo is built from
    identifiers that Telegram issues; the path of a document ends in the
    name its sender chose, and that name decides whether the file can be
    opened.  The saved media are kept beside the process state, and the
    handlers run in the same monad over the pair. *)

(** A photo message: the message and [m.photo], the sizes of the photo, each
    given by its [file_id]. *)
Record photo_message := PhotoMessage {
  photo_base : message;
  photo : list str
}.


(** What [ocr_image] is given: a file path or the bytes of an image. *)
Inductive image_source :=
| ImagePath (path : str)
| ImageBytes (data : list N).

(** The services the media handlers use.  [get_file] is
    [bot.get_file(file_id).file_path], [download_file] is
    [bot.download_file], and [image_to_string] is [Image.open] followed by
    [pytesseract.image_to_string(img, lang='vie')]; [None] stands for any
    exception they raise. *)
Record media_services := MediaServices {
  get_file : str → option str;
  download_file : str → option (list N);
  image_to_string : image_source → option str
}.

Record media_world := MediaWorld {
  bot_world : world;
  media : gmap str (list N)
}.

Definition MM (A : Type) : Type := media_world → result A * media_world.

Global Instance MM_ret : MRet MM := λ A a mw, (Ok a, mw).

Global Instance MM_bind : MBind MM := λ A B f m mw,
  match m mw with
  | (Ok a, mw') => f a mw'
  | (Raise e, mw') => (Raise e, mw')
  end.

(** A computation on the process state, run beside the saved media. *)
Definition lift {A} (m : M A) : MM A := λ mw,
  let (r, w') := m (bot_world mw) in (r, MediaWorld w' (media mw)).

(** [with open(path, "wb") as fp: fp.write(data)] *)
Definition write_bytes (path : str) (data : list N) : MM unit := λ mw,
  (Ok tt, MediaWorld (bot_world mw) (<[path := data]> (media mw))).

(** [seq[-1]] *)
Definition getlast {A} (l : list A) : M A :=
  match last l with
  | Some a => mret a
  | None => raise IndexError
  end.





Section Media.

Variable lower : str → str.
Variable cfg : config.
Variable ext : services.
Variable svc : media_services.

Definition bot_get_file (file_id : str) : M str :=
  match get_file svc file_id with
  | Some file_path => mret file_path
  | None => raise ServiceError
  end.

Definition bot_download_file (file_path : str) : M (list N) :=
  match download_file svc file_path with
  | Some data => mret data
  | None => raise ServiceError
  end.

Definition ocr_image (path_or_bytes : image_source) : M str :=
  try_except
    (match image_to_string svc path_or_bytes with
     | Some t => mret (strip t)
     | None => raise ServiceError
     end)
    (mret []).

Definition handle_photo (m : photo_message) : MM unit :=
  let uid := from_user_id (photo_base m) in
  file_id ← lift (getlast (photo m));
  file_path ← lift (bot_get_file file_id);
  data ← lift (bot_download_file file_path);
  lift (emit (Makedirs (MEDIA_DIR cfg)));;
  let local :=
    path_join (MEDIA_DIR cfg) (str_of_int uid ++ py "_" ++ file_id ++ py ".jpg") in
  write_bytes local data;;
  lift
    (reply_to (photo_base m) (py "Ảnh đã lưu, đang chạy OCR (Tiếng Việt)...");;
     ocr_text ← ocr_image (ImageBytes data);
     (if truthy ocr_text then
        reply_to (photo_base m)
          (py "OCR phát hiện văn bản (rút gọn):" ++ nl
           ++ (take 800 ocr_text
               ++ (if (800 <? length ocr_text)%nat then py "..." else [])));;
        push_user uid (py "[OCR] " ++ ocr_text)
      else
        push_user uid (py "[Ảnh đính kèm]"));;
     msgs ← build_messages uid SYSTEM_PROMPT;
     try_except
       (ans ← call_openai cfg ext msgs 700;
        push_assistant uid ans;;
        reply_to (photo_base m) ans)
       (reply_to (photo_base m) (py "Lỗi khi phân tích. Thử lại sau."))).


End Media.




(** Media services that are down, and ones that deliver the given bytes and
    recognise the given text. *)
Definition svc_down : media_services :=
  MediaServices (λ _, None) (λ _, None) (λ _, None).


Definition photo_example : photo_message :=
  PhotoMessage (Message 7 []) [py "small"; py "large"].





(** ** Further sample inputs *)

(** An extraction request that also holds the report keyword. *)
Definition extract_report : message := Message 7 (py "Trích xuất báo cáo.pdf").

(** The completion calls among some events: model, prompt and token budget
    of each. *)
Definition completions (tr : list event) : list (str * list turn * nat) :=
  omap (λ e, match e with
             | Completion model messages max_tokens =>
                 Some (model, messages, max_tokens)
             | _ => None
             end) tr.

(** A completion call as the text handler makes them: the configured model,
    a prompt that opens with the system prompt and holds at most 24 turns
    after it, and a budget of 700 or 900 tokens. *)
Definition prompt_ok (cfg : config) (call : str * list turn * nat) : Prop :=
  call.1.1 = OPENAI_MODEL cfg
  ∧ head call.1.2 = Some (Turn (py "system") SYSTEM_PROMPT)
  ∧ (length call.1.2 ≤ 25)%nat
  ∧ (call.2 = 700%nat ∨ call.2 = 900%nat).

(** * Properties *)

(** ** Running the monad *)

Lemma bind_ok {A B} (m : M A) (f : A → M B) w a w' :
  m w = (Ok a, w') → (m ≫= f) w = f a w'.
Proof. intros H. unfold mbind, M_bind. by rewrite H. Qed.

Lemma bind_raise {A B} (m : M A) (f : A → M B) w e w' :
  m w = (Raise e, w') → (m ≫= f) w = (Raise e, w').
Proof. intros H. unfold mbind, M_bind. by rewrite H. Qed.

Lemma try_ok {A} (m h : M A) w a w' :
  m w = (Ok a, w') → try_except m h w = (Ok a, w').
Proof. intros H. unfold try_except. by rewrite H. Qed.

Lemma try_raise {A} (m h : M A) w e w' :
  m w = (Raise e, w') → try_except m h w = h w'.
Proof. intros H. unfold try_except. by rewrite H. Qed.

(** ** Turn dicts under allocation and update *)

Lemma turns_of_rep h xs ts : Forall2 (points_to h) xs ts → turns_of h xs = ts.
Proof.
  induction 1 as [|x t xs ts Hx _ IH]; [done|].
  unfold turns_of in *. cbn [omap list_omap]. unfold read_turn at 1.
  rewrite Hx. cbn. by rewrite IH.
Qed.

Lemma rep_turns_of h xs :
  Forall (λ x, ∃ t, points_to h x t) xs → Forall2 (points_to h) xs (turns_of h xs).
Proof.
  induction 1 as [|x xs [t Hx] _ IH]; [constructor|].
  unfold turns_of in *. cbn [omap list_omap]. unfold read_turn at 1.
  rewrite Hx. cbn. by constructor.
Qed.

Lemma points_to_alloc h o x t : points_to h x t → points_to (h ++ [o]) x t.
Proof. apply lookup_app_l_Some. Qed.

Lemma points_to_store h l o x t :
  (∀ t', h !! l ≠ Some (ODict t')) → points_to h x t → points_to (<[l := o]> h) x t.
Proof.
  unfold points_to. intros Hl Hx.
  rewrite list_lookup_insert_ne; [done|]. intros ->. by eapply Hl.
Qed.

Lemma rep_mono (h h' : list obj) xs ts :
  (∀ x t, points_to h x t → points_to h' x t) →
  Forall2 (points_to h) xs ts → Forall2 (points_to h') xs ts.
Proof. intros Hm Hrep. eapply Forall2_impl; eauto. Qed.

Lemma deque_push_length {A} (xs : list A) x :
  (length xs ≤ 24)%nat → (length (deque_push xs 24 x) ≤ 24)%nat.
Proof.
  intros H. unfold deque_push. cbv zeta.
  destruct (Nat.ltb_spec 24 (length (xs ++ [x]))) as [Hlt|Hge]; [|done].
  rewrite length_drop, length_app. simpl. lia.
Qed.

Lemma deque_push_rep h xs ts x t :
  Forall2 (points_to h) xs ts → points_to h x t →
  Forall2 (points_to h) (deque_push xs 24 x) (deque_push ts 24 t).
Proof.
  intros Hrep Hx. unfold deque_push. cbv zeta.
  assert (Hall : Forall2 (points_to h) (xs ++ [x]) (ts ++ [t])).
  { apply Forall2_app; [done|]. by constructor. }
  rewrite <- (Forall2_length _ _ _ Hall).
  destruct (24 <? length (xs ++ [x]))%nat; [|done].
  by apply Forall2_drop.
Qed.

(** ** The store operations keep the invariant *)

Lemma wf_init : wf init.
Proof. split; simpl; intros *; by rewrite lookup_empty. Qed.

Lemma wf_io w tr fs : wf w → wf (World (heap w) (user_context w) fs tr).
Proof. intros [H1 H2]. by split. Qed.

Lemma history_io w tr fs u :
  history (World (heap w) (user_context w) fs tr) u = history w u.
Proof. done. Qed.

Lemma deque_ok_alloc h o d : deque_ok h d → deque_ok (h ++ [o]) d.
Proof.
  intros (xs & Hd & Hlen & Hxs). exists xs. split_and!; [|done|].
  - by apply lookup_app_l_Some.
  - eapply Forall_impl; [done|]. intros x [t Ht]. exists t. by apply points_to_alloc.
Qed.

Lemma history_deque w uid d xs n :
  user_context w !! uid = Some d → heap w !! d = Some (ODeque xs n) →
  history w uid = turns_of (heap w) xs.
Proof. intros H1 H2. unfold history. by rewrite H1, H2. Qed.

Lemma ensure_context_spec uid w :
  wf w →
  ∃ w', ensure_context uid w = (Ok tt, w') ∧ wf w'
        ∧ is_Some (user_context w' !! uid)
        ∧ (∀ u, history w' u = history w u) ∧ same_io w w'.
Proof.
  intros Hwf. unfold ensure_context, user_context_contains, mbind, M_bind.
  destruct (user_context w !! uid) as [d|] eqn:Hd.
  - rewrite bool_decide_eq_true_2 by eauto. simpl.
    exists w. unfold mret, M_ret. split_and!; eauto. by split.
  - rewrite bool_decide_eq_false_2 by (intros [? ?]; done). simpl.
    eexists. split; [reflexivity|]. simpl. split_and!.
    + destruct Hwf as [Hdq Hinj]. split; simpl.
      * intros u d'. destruct (decide (u = uid)) as [->|Hne].
        -- rewrite lookup_insert_eq. intros [= <-].
           exists []. split_and!; [|simpl; lia|constructor].
           by apply list_lookup_middle.
        -- rewrite lookup_insert_ne by done. intros Hu.
           by apply deque_ok_alloc, (Hdq u).
      * intros u1 u2 d'.
        assert (Hfresh : ∀ u, user_context w !! u = Some (length (heap w)) → False).
        { intros u Hu. destruct (Hdq _ _ Hu) as (xs & Hl & _).
          apply lookup_lt_Some in Hl. lia. }
        destruct (decide (u1 = uid)) as [->|Hn1], (decide (u2 = uid)) as [->|Hn2];
          rewrite ?lookup_insert_eq, ?lookup_insert_ne by done; try done.
        -- intros [= <-] Hu. by destruct (Hfresh u2).
        -- intros Hu [= <-]. by destruct (Hfresh u1).
        -- apply Hinj.
    + rewrite lookup_insert_eq. eauto.
    + intros u. unfold history at 1. simpl.
      destruct (decide (u = uid)) as [->|Hne].
      * rewrite lookup_insert_eq, list_lookup_middle by done.
        unfold history. by rewrite Hd.
      * rewrite lookup_insert_ne by done. unfold history.
        destruct (user_context w !! u) as [d'|] eqn:Hu; [|done].
        destruct (wf_deque _ Hwf _ _ Hu) as (xs & Hl & _ & Hxs).
        rewrite Hl, (lookup_app_l_Some _ _ _ _ Hl).
        apply turns_of_rep. eapply rep_mono; [|by apply rep_turns_of].
        intros x t. apply points_to_alloc.
    + by split.
Qed.

Lemma rep_Forall h xs ts :
  Forall2 (points_to h) xs ts → Forall (λ x, ∃ t, points_to h x t) xs.
Proof. induction 1; constructor; eauto. Qed.

(** Allocating an object and then overwriting a deque moves no turn dict. *)
Lemma points_to_push h d xs n o o' x t :
  h !! d = Some (ODeque xs n) →
  points_to h x t → points_to (<[d := o']> (h ++ [o])) x t.
Proof.
  intros Hd Hx. apply points_to_store; [|by apply points_to_alloc].
  intros t'. by rewrite (lookup_app_l_Some _ _ _ _ Hd).
Qed.

Lemma push_present uid d t w :
  wf w → user_context w !! uid = Some d →
  ∃ w', (d' ← user_context_getitem uid;
         x ← alloc (ODict t);
         deque_append d' x) w = (Ok tt, w')
        ∧ wf w' ∧ user_context w' = user_context w
        ∧ history w' uid = deque_push (history w uid) 24 t
        ∧ (∀ u, u ≠ uid → history w' u = history w u) ∧ same_io w w'.
Proof.
  intros Hwf Hd.
  destruct (wf_deque _ Hwf _ _ Hd) as (xs & Hl & Hlen & Hxs).
  pose proof (lookup_lt_Some _ _ _ Hl) as Hlt.
  assert (Hrep : Forall2 (points_to (heap w)) xs (turns_of (heap w) xs))
    by by apply rep_turns_of.
  set (h' := <[d := ODeque (deque_push xs 24 (length (heap w))) 24]>
               (heap w ++ [ODict t])).
  assert (Hh'd : h' !! d = Some (ODeque (deque_push xs 24 (length (heap w))) 24)).
  { apply list_lookup_insert_eq. rewrite length_app. simpl. lia. }
  assert (Hkeep : ∀ x t', points_to (heap w) x t' → points_to h' x t').
  { intros x t'. by eapply points_to_push. }
  assert (Hnew : points_to h' (length (heap w)) t).
  { apply points_to_store.
    - intros t'. by rewrite (lookup_app_l_Some _ _ _ _ Hl).
    - unfold points_to. by apply list_lookup_middle. }
  exists (World h' (user_context w) (files w) (trace w)).
  split_and!.
  - unfold mbind, M_bind, user_context_getitem. rewrite Hd.
    unfold alloc, deque_append, mbind, M_bind, load. simpl.
    by rewrite (lookup_app_l_Some _ _ _ _ Hl).
  - split; simpl; [|by apply (wf_inj _ Hwf)].
    intros u d' Hu. destruct (decide (d' = d)) as [->|Hne].
    + eexists. split_and!; [exact Hh'd|by apply deque_push_length|].
      eapply rep_Forall, deque_push_rep; [|exact Hnew].
      by eapply rep_mono.
    + destruct (wf_deque _ Hwf _ _ Hu) as (ys & Hl' & Hlen' & Hys).
      exists ys. split_and!; [|done|].
      * subst h'. rewrite list_lookup_insert_ne by done.
        by apply lookup_app_l_Some.
      * eapply Forall_impl; [done|]. intros x [t' Ht']. eauto.
  - done.
  - rewrite (history_deque (World h' _ _ _) _ _ _ _ Hd Hh'd),
      (history_deque _ _ _ _ _ Hd Hl).
    apply turns_of_rep. simpl. apply deque_push_rep; [|done].
    by eapply rep_mono.
  - intros u Hne. unfold history. simpl.
    destruct (user_context w !! u) as [d'|] eqn:Hu; [|done].
    destruct (wf_deque _ Hwf _ _ Hu) as (ys & Hl' & _ & Hys).
    assert (d' ≠ d) by (intros ->; by destruct Hne; eapply (wf_inj _ Hwf)).
    subst h'. rewrite list_lookup_insert_ne by done.
    rewrite (lookup_app_l_Some _ _ _ _ Hl'), Hl'.
    apply turns_of_rep. eapply rep_mono; [exact Hkeep|by apply rep_turns_of].
  - by split.
Qed.

Lemma push_turn_spec uid t w :
  wf w →
  ∃ w', (ensure_context uid;;
         d ← user_context_getitem uid;
         x ← alloc (ODict t);
         deque_append d x) w = (Ok tt, w')
        ∧ wf w' ∧ history w' uid = deque_push (history w uid) 24 t
        ∧ (∀ u, u ≠ uid → history w' u = history w u) ∧ same_io w w'.
Proof.
  intros Hwf.
  destruct (ensure_context_spec uid w Hwf) as (w1 & E1 & Hwf1 & [d Hd] & Hh1 & Hio1 & Hio1').
  destruct (push_present uid d t w1 Hwf1 Hd) as (w2 & E2 & Hwf2 & _ & Hh2 & Hother & Hio2 & Hio2').
  exists w2. split_and!; [|done| | |split; congruence].
  - by rewrite (bind_ok _ _ _ _ _ E1).
  - by rewrite Hh2, Hh1.
  - intros u Hne. by rewrite Hother, Hh1.
Qed.

Lemma push_user_spec uid text w :
  wf w →
  ∃ w', push_user uid text w = (Ok tt, w') ∧ wf w'
        ∧ history w' uid = deque_push (history w uid) 24 (Turn (py "user") text)
        ∧ (∀ u, u ≠ uid → history w' u = history w u) ∧ same_io w w'.
Proof. apply push_turn_spec. Qed.

Lemma push_assistant_spec uid text w :
  wf w →
  ∃ w', push_assistant uid text w = (Ok tt, w') ∧ wf w'
        ∧ history w' uid = deque_push (history w uid) 24 (Turn (py "assistant") text)
        ∧ (∀ u, u ≠ uid → history w' u = history w u) ∧ same_io w w'.
Proof. apply push_turn_spec. Qed.

Lemma history_length w uid : wf w → (length (history w uid) ≤ 24)%nat.
Proof.
  intros Hwf. unfold history.
  destruct (user_context w !! uid) as [d|] eqn:Hd; [|simpl; lia].
  destruct (wf_deque _ Hwf _ _ Hd) as (xs & Hl & Hlen & Hxs).
  rewrite Hl. apply rep_turns_of, Forall2_length in Hxs. lia.
Qed.

(** ** FIFO eviction *)

Lemma deque_push_last_n {A} (h : list A) t :
  (length h ≤ 24)%nat → deque_push h 24 t = last_n 24 (h ++ [t]).
Proof.
  intros Hlen. unfold deque_push, last_n. cbv zeta.
  rewrite length_app. simpl.
  destruct (Nat.ltb_spec 24 (length h + 1)) as [Hlt|Hge].
  - by replace (length h + 1 - 24)%nat with 1%nat by lia.
  - by replace (length h + 1 - 24)%nat with 0%nat by lia.
Qed.

Lemma last_n_all {A} n (l : list A) : (length l ≤ n)%nat → last_n n l = l.
Proof. intros H. unfold last_n. by replace (length l - n)%nat with 0%nat by lia. Qed.

Lemma last_n_length {A} n (l : list A) : length (last_n n l) = (length l `min` n)%nat.
Proof. unfold last_n. rewrite length_drop. lia. Qed.

Lemma last_n_app_last_n {A} n (l k : list A) :
  last_n n (last_n n l ++ k) = last_n n (l ++ k).
Proof.
  destruct (decide (length l ≤ n)%nat) as [Hle|Hgt].
  - by rewrite (last_n_all n l).
  - unfold last_n at 1 3. rewrite !length_app, last_n_length.
    unfold last_n. rewrite !drop_app, drop_drop, length_drop. f_equal; f_equal; lia.
Qed.

Lemma last_n_app_ge {A} n (l k : list A) :
  (n ≤ length k)%nat → last_n n (l ++ k) = last_n n k.
Proof.
  intros H. unfold last_n. rewrite length_app, drop_app.
  rewrite (drop_ge l) by lia. simpl. f_equal. lia.
Qed.

Lemma do_append_spec uid c w :
  wf w →
  ∃ w', do_append uid c w = (Ok tt, w') ∧ wf w'
        ∧ history w' uid = deque_push (history w uid) 24 (appended c)
        ∧ (∀ u, u ≠ uid → history w' u = history w u) ∧ same_io w w'.
Proof. destruct c; apply push_turn_spec. Qed.

Lemma do_appends_spec uid cs w :
  wf w →
  ∃ w', do_appends uid cs w = (Ok tt, w') ∧ wf w'
        ∧ history w' uid = last_n 24 (history w uid ++ map appended cs)
        ∧ (∀ u, u ≠ uid → history w' u = history w u) ∧ same_io w w'.
Proof.
  revert w. induction cs as [|c cs IH]; intros w Hwf.
  - exists w. split_and!; [done|done| |done|by split].
    simpl. rewrite app_nil_r, last_n_all; [done|by apply history_length].
  - destruct (do_append_spec uid c w Hwf) as (w1 & E1 & Hwf1 & Hh1 & Ho1 & Hio1 & Hio1').
    destruct (IH w1 Hwf1) as (w2 & E2 & Hwf2 & Hh2 & Ho2 & Hio2 & Hio2').
    exists w2. split_and!; [|done| | |split; congruence].
    + simpl. by rewrite (bind_ok _ _ _ _ _ E1).
    + rewrite Hh2, Hh1, deque_push_last_n by by apply history_length.
      rewrite last_n_app_last_n. simpl. by rewrite <- app_assoc.
    + intros u Hne. by rewrite Ho2, Ho1.
Qed.

(** C1. From any state of the store, more than 24 appends to one user's
    history never fail and leave exactly the last 24 appended turns, oldest
    first. *)
Theorem history_keeps_last_24 (uid : Z) (cs : list append_call) (w : world) :
  wf w → (24 < length cs)%nat →
  ∃ w', do_appends uid cs w = (Ok tt, w')
        ∧ history w' uid = last_n 24 (map appended cs)
        ∧ length (history w' uid) = 24%nat.
Proof.
  intros Hwf Hlen.
  destruct (do_appends_spec uid cs w Hwf) as (w' & E & _ & Hh & _).
  exists w'. split; [done|].
  rewrite Hh, last_n_app_ge by (rewrite length_map; lia).
  split; [done|]. rewrite last_n_length, length_map. lia.
Qed.

(** ** Reset *)

Lemma getitem_present uid d w :
  user_context w !! uid = Some d → user_context_getitem uid w = (Ok d, w).
Proof. intros Hd. unfold user_context_getitem. by rewrite Hd. Qed.

Lemma clear_present uid d w :
  wf w → user_context w !! uid = Some d →
  ∃ w', deque_clear d w = (Ok tt, w')
        ∧ wf w' ∧ history w' uid = []
        ∧ (∀ u, u ≠ uid → history w' u = history w u) ∧ same_io w w'.
Proof.
  intros Hwf Hd.
  destruct (wf_deque _ Hwf _ _ Hd) as (xs & Hl & Hlen & Hxs).
  pose proof (lookup_lt_Some _ _ _ Hl) as Hlt.
  set (h' := <[d := ODeque [] 24]> (heap w)).
  assert (Hh'd : h' !! d = Some (ODeque [] 24)) by by apply list_lookup_insert_eq.
  assert (Hkeep : ∀ x t', points_to (heap w) x t' → points_to h' x t').
  { intros x t'. apply (points_to_store (heap w) d). intros t''. by rewrite Hl. }
  exists (World h' (user_context w) (files w) (trace w)).
  split_and!.
  - unfold deque_clear, mbind, M_bind, load. by rewrite Hl.
  - split; simpl; [|by apply (wf_inj _ Hwf)].
    intros u d' Hu. destruct (decide (d' = d)) as [->|Hne].
    + exists []. split_and!; [done|simpl; lia|constructor].
    + destruct (wf_deque _ Hwf _ _ Hu) as (ys & Hl' & Hlen' & Hys).
      exists ys. split_and!; [|done|].
      * subst h'. by rewrite list_lookup_insert_ne.
      * eapply Forall_impl; [done|]. intros x [t' Ht']. eauto.
  - by rewrite (history_deque (World h' _ _ _) _ _ _ _ Hd Hh'd).
  - intros u Hne. unfold history. simpl.
    destruct (user_context w !! u) as [d'|] eqn:Hu; [|done].
    destruct (wf_deque _ Hwf _ _ Hu) as (ys & Hl' & _ & Hys).
    assert (d' ≠ d) by (intros ->; by destruct Hne; eapply (wf_inj _ Hwf)).
    subst h'. rewrite list_lookup_insert_ne by done. rewrite Hl'.
    apply turns_of_rep. eapply rep_mono; [exact Hkeep|by apply rep_turns_of].
  - by split.
Qed.

Lemma cmd_start_spec m w :
  wf w →
  ∃ w', cmd_start m w = (Ok tt, w') ∧ wf w'
        ∧ history w' (from_user_id m) = []
        ∧ (∀ u, u ≠ from_user_id m → history w' u = history w u)
        ∧ trace w' =
            trace w ++ [Reply m (py "Chào! Gửi ảnh hiện trường, PDF biên bản hoặc mô tả vụ việc để tôi phân tích. Gõ 'tạo báo cáo' để xuất PDF.")]
        ∧ files w' = files w.
Proof.
  intros Hwf.
  destruct (ensure_context_spec (from_user_id m) w Hwf)
    as (w1 & E1 & Hwf1 & [d Hd] & Hh1 & Hio1 & Hio1').
  destruct (clear_present _ d w1 Hwf1 Hd) as (w2 & E2 & Hwf2 & Hh2 & Ho2 & Hio2 & Hio2').
  eexists. split.
  { unfold cmd_start. rewrite (bind_ok _ _ _ _ _ E1).
    rewrite (bind_ok _ _ _ _ _ (getitem_present _ _ _ Hd)).
    rewrite (bind_ok _ _ _ _ _ E2). reflexivity. }
  cbn [heap user_context files trace]. split_and!.
  - by apply wf_io.
  - by rewrite history_io.
  - intros u Hne. by rewrite history_io, Ho2, Hh1.
  - by rewrite Hio2, Hio1.
  - congruence.
Qed.

(** ** Allocation and snapshots *)

Lemma alloc_frame w o :
  wf w →
  wf (World (heap w ++ [o]) (user_context w) (files w) (trace w))
  ∧ ∀ u, history (World (heap w ++ [o]) (user_context w) (files w) (trace w)) u
         = history w u.
Proof.
  intros Hwf. split.
  - split; simpl; [|by apply (wf_inj _ Hwf)].
    intros u d Hu. by apply deque_ok_alloc, (wf_deque _ Hwf u).
  - intros u. unfold history. simpl.
    destruct (user_context w !! u) as [d|] eqn:Hu; [|done].
    destruct (wf_deque _ Hwf _ _ Hu) as (xs & Hl & _ & Hxs).
    rewrite (lookup_app_l_Some _ _ _ _ Hl), Hl.
    apply turns_of_rep. eapply rep_mono; [|by apply rep_turns_of].
    intros x t. apply points_to_alloc.
Qed.

Lemma build_messages_spec uid sp w :
  wf w →
  ∃ w' l xs, build_messages uid sp w = (Ok l, w') ∧ wf w'
        ∧ heap w' !! l = Some (OList xs)
        ∧ Forall2 (points_to (heap w')) xs (Turn (py "system") sp :: history w uid)
        ∧ (∀ u, history w' u = history w u) ∧ same_io w w'.
Proof.
  intros Hwf.
  destruct (ensure_context_spec uid w Hwf) as (w1 & E1 & Hwf1 & [d Hd] & Hh1 & Hio1 & Hio1').
  destruct (wf_deque _ Hwf1 _ _ Hd) as (xs & Hl & Hlen & Hxs).
  set (s := Turn (py "system") sp).
  set (n := length (heap w1)).
  set (h2 := heap w1 ++ [ODict s]).
  set (h3 := h2 ++ [OList [n]]).
  set (h4 := h3 ++ [OList xs]).
  set (h5 := h4 ++ [OList ([n] ++ xs)]).
  assert (H3 : h4 !! length h2 = Some (OList [n])).
  { subst h4 h3. apply lookup_app_l_Some. by apply list_lookup_middle. }
  assert (H4 : h4 !! length h3 = Some (OList xs)) by by apply list_lookup_middle.
  assert (Hd4 : h3 !! d = Some (ODeque xs 24)).
  { subst h3 h2. by do 2 apply lookup_app_l_Some. }
  exists (World h5 (user_context w1) (files w1) (trace w1)), (length h4), ([n] ++ xs).
  split_and!.
  - unfold build_messages. rewrite (bind_ok _ _ _ _ _ E1).
    unfold mbind, M_bind, alloc, user_context_getitem. simpl. rewrite Hd.
    unfold list_of_deque, mbind, M_bind, load, alloc. simpl.
    fold n s h2 h3. rewrite Hd4. simpl.
    unfold list_add, mbind, M_bind, load, alloc. simpl.
    fold h4. rewrite H3. simpl. by rewrite H4.
  - destruct (alloc_frame w1 (ODict s) Hwf1) as [W2 _].
    destruct (alloc_frame _ (OList [n]) W2) as [W3 _].
    destruct (alloc_frame _ (OList xs) W3) as [W4 _].
    by destruct (alloc_frame _ (OList ([n] ++ xs)) W4) as [W5 _].
  - simpl. by apply list_lookup_middle.
  - simpl. constructor.
    + unfold points_to. subst h5 h4 h3 h2 n.
      do 3 apply lookup_app_l_Some. by apply list_lookup_middle.
    + rewrite <- Hh1, (history_deque _ _ _ _ _ Hd Hl).
      eapply rep_mono; [|by apply rep_turns_of].
      intros x t Hx. by do 4 apply points_to_alloc.
  - intros u. rewrite <- Hh1.
    destruct (alloc_frame w1 (ODict s) Hwf1) as [W2 F2].
    destruct (alloc_frame _ (OList [n]) W2) as [W3 F3].
    destruct (alloc_frame _ (OList xs) W3) as [W4 F4].
    destruct (alloc_frame _ (OList ([n] ++ xs)) W4) as [W5 F5].
    simpl in *. by rewrite F5, F4, F3, F2.
  - by split.
Qed.

Lemma load_turns_spec xs ts w :
  Forall2 (points_to (heap w)) xs ts → load_turns xs w = (Ok ts, w).
Proof.
  induction 1 as [|x t xs ts Hx _ IH]; [done|].
  simpl. unfold mbind, M_bind, load_turn, mbind, M_bind, load.
  unfold points_to in Hx. rewrite Hx. unfold mret, M_ret.
  unfold mbind, M_bind in IH. by rewrite IH.
Qed.

(** C2. A reset leaves the user's history empty whatever it held: the
    snapshot that [build_messages] then takes holds the system prompt and no
    turn of the history. *)
Theorem reset_then_snapshot_empty (m : message) (w : world) :
  wf w →
  ∃ w1 w2 l,
    cmd_start m w = (Ok tt, w1)
    ∧ history w1 (from_user_id m) = []
    ∧ build_messages (from_user_id m) SYSTEM_PROMPT w1 = (Ok l, w2)
    ∧ list_turns w2 l = [Turn (py "system") SYSTEM_PROMPT]
    ∧ history w2 (from_user_id m) = [].
Proof.
  intros Hwf.
  destruct (cmd_start_spec m w Hwf) as (w1 & E1 & Hwf1 & Hh1 & _).
  destruct (build_messages_spec (from_user_id m) SYSTEM_PROMPT w1 Hwf1)
    as (w2 & l & xs & E2 & Hwf2 & Hl & Hrep & Hh2 & _).
  exists w1, w2, l. split_and!; [done|done|done| |by rewrite Hh2].
  unfold list_turns. rewrite Hl, (turns_of_rep _ _ _ Hrep). by rewrite Hh1.
Qed.

(** ** Mutating a snapshot *)

Lemma build_messages_shares uid sp w :
  wf w →
  ∃ w' l s d xs, build_messages uid sp w = (Ok l, w')
        ∧ heap w' !! l = Some (OList (s :: xs))
        ∧ user_context w' !! uid = Some d
        ∧ heap w' !! d = Some (ODeque xs 24).
Proof.
  intros Hwf.
  destruct (ensure_context_spec uid w Hwf) as (w1 & E1 & Hwf1 & [d Hd] & _).
  destruct (wf_deque _ Hwf1 _ _ Hd) as (xs & Hl & _).
  set (s := Turn (py "system") sp).
  set (n := length (heap w1)).
  set (h2 := heap w1 ++ [ODict s]).
  set (h3 := h2 ++ [OList [n]]).
  set (h4 := h3 ++ [OList xs]).
  set (h5 := h4 ++ [OList ([n] ++ xs)]).
  assert (H3 : h4 !! length h2 = Some (OList [n])).
  { subst h4 h3. apply lookup_app_l_Some. by apply list_lookup_middle. }
  assert (H4 : h4 !! length h3 = Some (OList xs)) by by apply list_lookup_middle.
  assert (Hd4 : h3 !! d = Some (ODeque xs 24)).
  { subst h3 h2. by do 2 apply lookup_app_l_Some. }
  exists (World h5 (user_context w1) (files w1) (trace w1)), (length h4), n, d, xs.
  split_and!.
  - unfold build_messages. rewrite (bind_ok _ _ _ _ _ E1).
    unfold mbind, M_bind, alloc, user_context_getitem. simpl. rewrite Hd.
    unfold list_of_deque, mbind, M_bind, load, alloc. simpl.
    fold n s h2 h3. rewrite Hd4. simpl.
    unfold list_add, mbind, M_bind, load, alloc. simpl.
    fold h4. rewrite H3. simpl. by rewrite H4.
  - simpl. by apply list_lookup_middle.
  - exact Hd.
  - simpl. subst h5 h4. by do 2 apply lookup_app_l_Some.
Qed.

Lemma list_mutate_frame l xs f w :
  wf w → heap w !! l = Some (OList xs) →
  ∃ w', list_mutate l f w = (Ok tt, w') ∧ wf w'
        ∧ user_context w' = user_context w
        ∧ (∀ u, history w' u = history w u) ∧ same_io w w'.
Proof.
  intros Hwf Hl.
  set (h' := <[l := OList (f xs)]> (heap w)).
  assert (Hkeep : ∀ x t, points_to (heap w) x t → points_to h' x t).
  { intros x t. apply (points_to_store (heap w) l). intros t'. by rewrite Hl. }
  assert (Hdq : ∀ d ys n, heap w !! d = Some (ODeque ys n) → h' !! d = Some (ODeque ys n)).
  { intros d ys n Hd. subst h'. rewrite list_lookup_insert_ne; [done|].
    intros ->. by rewrite Hl in Hd. }
  exists (World h' (user_context w) (files w) (trace w)).
  split_and!.
  - unfold list_mutate, mbind, M_bind, load. by rewrite Hl.
  - split; simpl; [|by apply (wf_inj _ Hwf)].
    intros u d Hu. destruct (wf_deque _ Hwf _ _ Hu) as (ys & Hd & Hlen & Hys).
    exists ys. split_and!; [by apply Hdq|done|].
    eapply Forall_impl; [done|]. intros x [t Ht]. eauto.
  - done.
  - intros u. unfold history. simpl.
    destruct (user_context w !! u) as [d|] eqn:Hu; [|done].
    destruct (wf_deque _ Hwf _ _ Hu) as (ys & Hd & _ & Hys).
    rewrite (Hdq _ _ _ Hd), Hd.
    apply turns_of_rep. eapply rep_mono; [exact Hkeep|by apply rep_turns_of].
  - by split.
Qed.

(** C7, as the code has it. [build_messages] returns the current turns,
    oldest first, behind the system prompt, in a list of its own: whatever is
    then done to that list in place, every stored history stays as it was.
    The copy is shallow: behind the system prompt the list holds the very
    dicts that the user's deque holds. *)
Theorem snapshot_is_a_fresh_list
    (uid : Z) (system_prompt : str) (f : list loc → list loc) (w : world) :
  wf w →
  ∃ w1 l w2 s d items,
    build_messages uid system_prompt w = (Ok l, w1)
    ∧ list_turns w1 l = Turn (py "system") system_prompt :: history w uid
    ∧ (∀ u, history w1 u = history w u)
    ∧ list_mutate l f w1 = (Ok tt, w2)
    ∧ (∀ u, history w2 u = history w u)
    ∧ user_context w2 = user_context w1
    ∧ heap w1 !! l = Some (OList (s :: items))
    ∧ user_context w1 !! uid = Some d
    ∧ heap w1 !! d = Some (ODeque items 24).
Proof.
  intros Hwf.
  destruct (build_messages_spec uid system_prompt w Hwf)
    as (w1 & l & xs & E1 & Hwf1 & Hl & Hrep & Hh1 & _).
  destruct (build_messages_shares uid system_prompt w Hwf)
    as (w1' & l' & s & d & items & E1' & Hl' & Hd & Hitems).
  rewrite E1 in E1'. injection E1' as <- <-.
  destruct (list_mutate_frame l xs f w1 Hwf1 Hl) as (w2 & E2 & _ & Huc & Hh2 & _).
  exists w1, l, w2, s, d, items.
  split_and!; [done| |done|done| |done|done|done|done].
  - unfold list_turns. by rewrite Hl, (turns_of_rep _ _ _ Hrep).
  - intros u. by rewrite Hh2, Hh1.
Qed.

(** C10. An operation of the store on one user leaves the history of every
    other user as it was. *)
Theorem store_ops_leave_other_users (uid u : Z) (body : str) (w : world) :
  wf w → u ≠ uid →
  (∃ w', ensure_context uid w = (Ok tt, w') ∧ history w' u = history w u)
  ∧ (∃ w', push_user uid body w = (Ok tt, w') ∧ history w' u = history w u)
  ∧ (∃ w', push_assistant uid body w = (Ok tt, w') ∧ history w' u = history w u)
  ∧ (∃ w', cmd_start (Message uid body) w = (Ok tt, w') ∧ history w' u = history w u).
Proof.
  intros Hwf Hne. split_and!.
  - destruct (ensure_context_spec uid w Hwf) as (w' & E & _ & _ & Hh & _). eauto.
  - destruct (push_user_spec uid body w Hwf) as (w' & E & _ & _ & Hh & _). eauto.
  - destruct (push_assistant_spec uid body w Hwf) as (w' & E & _ & _ & Hh & _). eauto.
  - destruct (cmd_start_spec (Message uid body) w Hwf) as (w' & E & _ & _ & Hh & _).
    exists w'. split; [done|]. by apply Hh.
Qed.

(** ** Decimal numerals *)

Lemma to_int_not_nil z :
  Z.to_int z ≠ Decimal.Pos Decimal.Nil ∧ Z.to_int z ≠ Decimal.Neg Decimal.Nil.
Proof.
  split; intros H;
    (assert (z = 0%Z) as ->
       by (apply (f_equal Z.of_int) in H; by rewrite DecimalZ.of_to in H));
    discriminate H.
Qed.

Lemma ascii_codes_inv (l : list Ascii.ascii) :
  map Ascii.ascii_of_N (map Ascii.N_of_ascii l) = l.
Proof.
  induction l as [|a l IH]; [done|].
  cbn [map]. by rewrite Ascii.ascii_N_embedding, IH.
Qed.

Lemma str_of_int_inj z1 z2 : str_of_int z1 = str_of_int z2 → z1 = z2.
Proof.
  unfold str_of_int. intros H.
  apply (f_equal (map Ascii.ascii_of_N)) in H.
  rewrite !ascii_codes_inv in H.
  apply (f_equal String.string_of_list_ascii) in H.
  rewrite !String.string_of_list_ascii_of_string in H.
  apply (f_equal NilZero.int_of_string) in H.
  destruct (to_int_not_nil z1), (to_int_not_nil z2).
  rewrite !NilZero.isi in H by done.
  injection H as H. apply (f_equal Z.of_int) in H.
  by rewrite !DecimalZ.of_to in H.
Qed.

Lemma uint_chars d :
  Forall (λ c, 48 ≤ c ≤ 57)
    (map Ascii.N_of_ascii (String.list_ascii_of_string (NilEmpty.string_of_uint d))).
Proof. induction d; cbn; constructor; (lia || done). Qed.

Lemma str_of_int_chars z : Forall (λ c, c = 45 ∨ 48 ≤ c ≤ 57) (str_of_int z).
Proof.
  assert (Hu : ∀ d, Forall (λ c, c = 45 ∨ 48 ≤ c ≤ 57)
            (map Ascii.N_of_ascii
               (String.list_ascii_of_string (NilZero.string_of_uint d)))).
  { intros d. eapply Forall_impl.
    - destruct d; try apply uint_chars. cbn. constructor; [lia|constructor].
    - cbn beta. lia. }
  unfold str_of_int. destruct (Z.to_int z) as [d|d]; cbn [NilZero.string_of_int].
  - apply Hu.
  - cbn. constructor; [by left|apply Hu].
Qed.

Lemma str_of_int_no_underscore z : 95 ∉ str_of_int z.
Proof.
  intros Hin. pose proof (str_of_int_chars z) as H.
  rewrite Forall_forall in H. specialize (H _ Hin). lia.
Qed.

Lemma str_of_int_no_surrogate z : has_surrogate (str_of_int z) = false.
Proof.
  unfold has_surrogate. pose proof (str_of_int_chars z) as H.
  induction H as [|c l Hc _ IH]; [done|].
  cbn [existsb]. rewrite IH, orb_false_r. unfold is_surrogate.
  destruct (N.leb_spec 55296 c); [lia|done].
Qed.

Lemma has_surrogate_app a b :
  has_surrogate (a ++ b) = has_surrogate a || has_surrogate b.
Proof. apply existsb_app. Qed.

(** ** Collaborator calls *)

Section Handlers.

Variable lower : str → str.
Variable cfg : config.
Variable ext : services.

Lemma call_openai_spec l xs ts n w :
  heap w !! l = Some (OList xs) → Forall2 (points_to (heap w)) xs ts →
  call_openai cfg ext l n w =
    (match create ext (OPENAI_MODEL cfg) ts n with
     | Some c => Ok (strip c)
     | None => Raise ServiceError
     end,
     World (heap w) (user_context w) (files w)
           (trace w ++ [Completion (OPENAI_MODEL cfg) ts n])).
Proof.
  intros Hl Hrep. unfold call_openai.
  assert (E : load l w = (Ok (OList xs), w)) by (unfold load; by rewrite Hl).
  rewrite (bind_ok _ _ _ _ _ E).
  rewrite (bind_ok _ _ _ _ _ (load_turns_spec _ _ _ Hrep)).
  unfold mbind, M_bind, emit.
  by destruct (create ext (OPENAI_MODEL cfg) ts n).
Qed.

Lemma fetch_url_text_spec url w :
  fetch_url_text cfg ext url w =
    (Ok (fetched cfg ext url),
     World (heap w) (user_context w) (files w) (trace w ++ fetch_events cfg url)).
Proof.
  unfold fetch_url_text, fetched, fetch_events.
  destruct (WEB_SCRAPE_ENABLED cfg); simpl.
  - unfold try_except, mbind, M_bind, emit.
    by destruct (get_text ext url).
  - unfold mret, M_ret. rewrite app_nil_r. by destruct w.
Qed.

(** ** Strings *)

Lemma startswith_app s p : startswith s p = true → ∃ r, s = p ++ r.
Proof.
  revert s. induction p as [|c p IH]; intros s H; [by exists s|].
  destruct s as [|c' s]; [done|]. simpl in H.
  apply andb_prop in H as [Hc Hp]. apply N.eqb_eq in Hc as ->.
  destruct (IH _ Hp) as [r ->]. by exists r.
Qed.

Lemma app_startswith p r : startswith (p ++ r) p = true.
Proof. induction p as [|c p IH]; [done|]. simpl. by rewrite N.eqb_refl. Qed.

Lemma startswith_contains s p : startswith s p = true → contains s p = true.
Proof. intros H. destruct s; simpl; by rewrite H. Qed.

Lemma contains_app_mid a s b : contains (a ++ s ++ b) s = true.
Proof.
  induction a as [|c a IH].
  - apply startswith_contains, (app_startswith s b).
  - simpl. rewrite IH. by rewrite orb_true_r.
Qed.

Lemma contains_split a s b t : t = a ++ s ++ b → contains t s = true.
Proof. intros ->. apply contains_app_mid. Qed.

Lemma split1_space s : 32 ∈ s → ∃ a rest, split1 s = [a; rest].
Proof.
  induction s as [|c s IH]; intros Hin; [by apply elem_of_nil in Hin|].
  cbn [split1]. destruct (c =? 32) eqn:Hc; [eauto|].
  apply N.eqb_neq in Hc.
  apply elem_of_cons in Hin as [Heq|Hin]; [done|].
  destruct (IH Hin) as (a & rest & ->). eauto.
Qed.

(** ** The fetch branch *)

(** Lower-casing creates no space: a text whose lower-case form has a space
    has one itself. *)
Hypothesis lower_space : ∀ s, 32 ∈ lower s → 32 ∈ s.

Lemma fetch_guard_split text :
  fetch_guard lower text = true → ∃ rest, split1 text !! 1%nat = Some rest.
Proof.
  intros H. apply startswith_app in H as [r Hr].
  destruct (split1_space text) as (a & rest & ->); [|by exists rest].
  apply lower_space. rewrite Hr. apply elem_of_app. left.
  by vm_compute; repeat constructor.
Qed.

Lemma emit_eq e w :
  emit e w = (Ok tt, World (heap w) (user_context w) (files w) (trace w ++ [e])).
Proof. done. Qed.

Lemma reply_to_eq m body w :
  reply_to m body w =
    (Ok tt, World (heap w) (user_context w) (files w) (trace w ++ [Reply m body])).
Proof. done. Qed.

Lemma handle_text_fetch m w :
  wf w → fetch_guard lower (strip (text m)) = true →
  ∃ rest w',
    split1 (strip (text m)) !! 1%nat = Some rest
    ∧ handle_text lower cfg ext m w = (Ok tt, w')
    ∧ wf w'
    ∧ trace w' =
        trace w
        ++ [Reply m (py "Đang fetch nội dung từ: " ++ strip rest ++ py " (nếu chức năng bật)")]
        ++ fetch_events cfg (strip rest)
        ++ [Reply m
              (if truthy (fetched cfg ext (strip rest)) then
                 py "Trích xuất nội dung (rút gọn):" ++ nl
                 ++ take 800 (fetched cfg ext (strip rest))
               else
                 py "Không lấy được nội dung. Chức năng crawl có thể tắt hoặc URL không cho phép.")]
    ∧ history w' (from_user_id m) =
        (if truthy (fetched cfg ext (strip rest)) then
           deque_push (history w (from_user_id m)) 24
             (Turn (py "user") (py "[WEB] " ++ fetched cfg ext (strip rest)))
         else history w (from_user_id m))
    ∧ (∀ u, u ≠ from_user_id m → history w' u = history w u)
    ∧ files w' = files w.
Proof.
  intros Hwf Hg. destruct (fetch_guard_split _ Hg) as [rest Hrest].
  exists rest. unfold handle_text. cbv zeta.
  unfold fetch_guard in Hg. rewrite Hg.
  unfold getitem. rewrite Hrest.
  unfold mbind at 1, M_bind at 1, mret at 1, M_ret at 1.
  unfold reply_to. rewrite (bind_ok _ _ _ _ _ (emit_eq _ _)).
  rewrite (bind_ok _ _ _ _ _ (fetch_url_text_spec _ _)).
  destruct (truthy (fetched cfg ext (strip rest))).
  - rewrite (bind_ok _ _ _ _ _ (emit_eq _ _)). cbn [heap user_context files trace].
    match goal with |- context [push_user ?u ?t ?w0] =>
      destruct (push_user_spec u t w0) as (w' & E & Hwf' & Hh & Ho & Hio & Hio')
    end; [by apply (wf_io w)|].
    exists w'. split_and!; [done|done|done| |done|done|done].
    rewrite Hio. cbn [trace]. by rewrite <- !app_assoc.
  - eexists. split_and!; [done|by rewrite emit_eq| | |done|done|done];
      cbn [heap user_context files trace].
    + by apply (wf_io w).
    + by rewrite <- !app_assoc.
Qed.

(** ** Report rendering *)

Lemma f_write_ok path s written w :
  files w !! path = Some (TextFile written) → has_surrogate s = false →
  f_write path s w =
    (Ok tt, World (heap w) (user_context w)
              (<[path := TextFile (written ++ s)]> (files w)) (trace w)).
Proof. intros Hf Hs. unfold f_write. by rewrite Hs, Hf. Qed.

Lemma f_write_raise path s w :
  has_surrogate s = true → f_write path s w = (Raise UnicodeEncodeError, w).
Proof. intros Hs. unfold f_write. by rewrite Hs. Qed.

Lemma heading_no_surrogate :
  has_surrogate (py "BÁO CÁO GIÁM ĐỊNH" ++ nl ++ nl) = false.
Proof. by vm_compute. Qed.

Lemma user_lines_surrogate uid title :
  has_surrogate (py "Người dùng: " ++ str_of_int uid ++ nl
                 ++ py "Tiêu đề: " ++ title ++ nl ++ nl)
  = has_surrogate title.
Proof.
  rewrite !has_surrogate_app, str_of_int_no_surrogate.
  assert (H1 : has_surrogate (py "Người dùng: ") = false) by by vm_compute.
  assert (H2 : has_surrogate (py "Tiêu đề: ") = false) by by vm_compute.
  assert (H3 : has_surrogate nl = false) by done.
  rewrite H1, H2, H3. cbn [orb]. by rewrite orb_false_r.
Qed.

Lemma footer_surrogate :
  has_surrogate (nl ++ nl ++ WATERMARK_TEXT cfg) = has_surrogate (WATERMARK_TEXT cfg).
Proof. by rewrite !has_surrogate_app. Qed.

(** [generate_pdf] either returns the path of the file it wrote or raises;
    it touches neither heap nor [user_context]. *)
Lemma generate_pdf_run uid title content w :
  ∃ r fs,
    generate_pdf cfg ext uid title content w
      = (r, World (heap w) (user_context w) fs (trace w ++ made_dirs cfg))
    ∧ if render_ok cfg ext uid title content
      then r = Ok (report_file cfg ext uid title content).1
           ∧ fs = <[(report_file cfg ext uid title content).1 :=
                      (report_file cfg ext uid title content).2]> (files w)
      else ∃ e, r = Raise e.
Proof.
  unfold generate_pdf, render_ok, made_dirs, makedirs, report_file, report_path.
  cbv zeta.
  destruct (bool_decide (MEDIA_DIR cfg = [])) eqn:Hd; cbn [negb andb].
  { exists (Raise OSError), (files w). split; [|eauto].
    rewrite app_nil_r. by destruct w. }
  rewrite (bind_ok _ _ _ _ _ (emit_eq _ _)).
  destruct (canvas cfg); cbn [fst snd].
  { destruct (canvas_saves ext _ _); eexists _, _; (split; [reflexivity|]); eauto. }
  unfold open_text.
  erewrite bind_ok by reflexivity.
  erewrite bind_ok
    by (apply f_write_ok; [apply lookup_insert_eq|apply heading_no_surrogate]).
  cbn [heap user_context files trace].
  destruct (has_surrogate title) eqn:Ht; cbn [negb andb].
  { erewrite bind_raise by (apply f_write_raise; by rewrite user_lines_surrogate).
    eexists _, _. split; [reflexivity|eauto]. }
  erewrite bind_ok
    by (apply f_write_ok; [apply lookup_insert_eq|by rewrite user_lines_surrogate]).
  cbn [heap user_context files trace].
  destruct (has_surrogate content) eqn:Hc; cbn [negb andb].
  { erewrite bind_raise by (by apply f_write_raise).
    eexists _, _. split; [reflexivity|eauto]. }
  erewrite bind_ok by (apply f_write_ok; [apply lookup_insert_eq|done]).
  cbn [heap user_context files trace].
  destruct (has_surrogate (WATERMARK_TEXT cfg)) eqn:Hw; cbn [negb].
  { erewrite bind_raise by (apply f_write_raise; by rewrite footer_surrogate).
    eexists _, _. split; [reflexivity|eauto]. }
  erewrite bind_ok
    by (apply f_write_ok; [apply lookup_insert_eq|by rewrite footer_surrogate]).
  cbn [heap user_context files trace].
  eexists _, _. split; [reflexivity|]. split; [done|].
  rewrite !insert_insert_eq. unfold report_text. do 2 f_equal.
  by rewrite app_nil_l, <- !app_assoc.
Qed.

Lemma generate_pdf_ok uid title content w :
  render_ok cfg ext uid title content = true →
  generate_pdf cfg ext uid title content w =
    (Ok (report_file cfg ext uid title content).1,
     World (heap w) (user_context w)
           (<[(report_file cfg ext uid title content).1 :=
                (report_file cfg ext uid title content).2]> (files w))
           (trace w ++ [Makedirs (MEDIA_DIR cfg)])).
Proof.
  intros Hok. destruct (generate_pdf_run uid title content w) as (r & fs & E & H).
  rewrite Hok in H. destruct H as [-> ->]. rewrite E.
  unfold render_ok in Hok. apply andb_prop in Hok as [Hd _].
  unfold made_dirs. by destruct (bool_decide (MEDIA_DIR cfg = [])).
Qed.

(** ** The report branch *)

Lemma handle_text_report m w :
  wf w → report_request lower m →
  ∃ w',
    handle_text lower cfg ext m w = (Ok tt, w')
    ∧ wf w'
    ∧ (∀ u, u ≠ from_user_id m → history w' u = history w u)
    ∧ match create ext (OPENAI_MODEL cfg)
              (Turn (py "system") SYSTEM_PROMPT :: history w (from_user_id m)) 900 with
      | None =>
          trace w' =
            trace w
            ++ [Reply m (py "Đang tạo báo cáo PDF...");
                Completion (OPENAI_MODEL cfg)
                  (Turn (py "system") SYSTEM_PROMPT :: history w (from_user_id m)) 900;
                Reply m (py "Lỗi khi tạo báo cáo.")]
          ∧ files w' = files w
          ∧ history w' (from_user_id m) = history w (from_user_id m)
      | Some c =>
          trace w' =
            trace w
            ++ [Reply m (py "Đang tạo báo cáo PDF...");
                Completion (OPENAI_MODEL cfg)
                  (Turn (py "system") SYSTEM_PROMPT :: history w (from_user_id m)) 900]
            ++ made_dirs cfg
            ++ [Reply m
                  (if render_ok cfg ext (from_user_id m) (py "Báo cáo từ Bot") (strip c)
                   then py "Báo cáo tạo xong: "
                        ++ (report_file cfg ext (from_user_id m)
                              (py "Báo cáo từ Bot") (strip c)).1
                   else py "Lỗi khi tạo báo cáo.")]
          ∧ (if render_ok cfg ext (from_user_id m) (py "Báo cáo từ Bot") (strip c)
             then files w' =
                    <[(report_file cfg ext (from_user_id m)
                         (py "Báo cáo từ Bot") (strip c)).1 :=
                        (report_file cfg ext (from_user_id m)
                           (py "Báo cáo từ Bot") (strip c)).2]> (files w)
             else True)
          ∧ history w' (from_user_id m) =
              deque_push (history w (from_user_id m)) 24
                (Turn (py "assistant") (strip c))
      end.
Proof.
  intros Hwf (Hf & He & Hr).
  unfold fetch_guard, extract_guard, report_guard in *.
  unfold handle_text. cbv zeta. rewrite Hf, He, Hr.
  unfold reply_to. rewrite (bind_ok _ _ _ _ _ (emit_eq _ _)).
  match goal with |- context [(build_messages ?u ?sp ≫= _) ?w0] =>
    destruct (build_messages_spec u sp w0)
      as (w2 & l & xs & E2 & Hwf2 & Hl & Hrep & Hh2 & Hio2 & Hio2')
  end; [by apply (wf_io w)|].
  rewrite (bind_ok _ _ _ _ _ E2).
  pose proof (call_openai_spec l xs _ 900 w2 Hl Hrep) as Ec.
  rewrite history_io in Ec. cbn [trace files] in Hio2, Hio2'.
  destruct (create ext (OPENAI_MODEL cfg)
              (Turn (py "system") SYSTEM_PROMPT :: history w (from_user_id m)) 900)
    as [c|] eqn:Hc.
  - match type of Ec with _ = (_, ?w3) =>
      destruct (push_assistant_spec (from_user_id m) (strip c) w3)
        as (w4 & E4 & Hwf4 & Hh4 & Ho4 & Hio4 & Hio4')
    end; [by apply (wf_io w2)|].
    cbn [trace files] in Hio4, Hio4'. rewrite history_io in Hh4.
    destruct (generate_pdf_run (from_user_id m) (py "Báo cáo từ Bot") (strip c) w4)
      as (r & fs & E5 & Hr5).
    destruct (render_ok cfg ext (from_user_id m) (py "Báo cáo từ Bot") (strip c)).
    + destruct Hr5 as [-> ->].
      eexists. split.
      { erewrite try_ok; [reflexivity|].
        rewrite (bind_ok _ _ _ _ _ Ec), (bind_ok _ _ _ _ _ E4).
        rewrite (bind_ok _ _ _ _ _ E5). by rewrite emit_eq. }
      cbn [heap user_context files trace]. split_and!.
      * by apply (wf_io w4).
      * intros u Hne. rewrite history_io, Ho4 by done.
        by rewrite history_io, Hh2, history_io.
      * rewrite Hio4, Hio2. by rewrite <- !app_assoc.
      * by rewrite Hio4', Hio2'.
      * rewrite history_io, Hh4. by rewrite Hh2, history_io.
    + destruct Hr5 as [e ->].
      eexists. split.
      { erewrite try_raise;
          [|by rewrite (bind_ok _ _ _ _ _ Ec), (bind_ok _ _ _ _ _ E4),
                       (bind_raise _ _ _ _ _ E5)].
        by rewrite emit_eq. }
      cbn [heap user_context files trace]. split_and!.
      * by apply (wf_io w4).
      * intros u Hne. rewrite history_io, Ho4 by done.
        by rewrite history_io, Hh2, history_io.
      * rewrite Hio4, Hio2. by rewrite <- !app_assoc.
      * done.
      * rewrite history_io, Hh4. by rewrite Hh2, history_io.
  - eexists. split.
    { erewrite try_raise; [|by rewrite (bind_raise _ _ _ _ _ Ec)].
      by rewrite emit_eq. }
    cbn [heap user_context files trace]. split_and!.
    + by apply (wf_io w2).
    + intros u Hne. by rewrite history_io, Hh2, history_io.
    + rewrite Hio2. by rewrite <- !app_assoc.
    + done.
    + by rewrite history_io, Hh2, history_io.
Qed.

(** ** The completion flow of the extraction branch and of the last branch *)

Lemma completion_flow uid m fail w :
  wf w →
  ∃ w',
    (msgs ← build_messages uid SYSTEM_PROMPT;
     try_except
       (ans ← call_openai cfg ext msgs 700;
        push_assistant uid ans;;
        reply_to m ans)
       (reply_to m fail)) w = (Ok tt, w')
    ∧ wf w'
    ∧ (∀ u, u ≠ uid → history w' u = history w u)
    ∧ files w' = files w
    ∧ match create ext (OPENAI_MODEL cfg)
              (Turn (py "system") SYSTEM_PROMPT :: history w uid) 700 with
      | None =>
          trace w' =
            trace w
            ++ [Completion (OPENAI_MODEL cfg)
                  (Turn (py "system") SYSTEM_PROMPT :: history w uid) 700;
                Reply m fail]
          ∧ history w' uid = history w uid
      | Some c =>
          trace w' =
            trace w
            ++ [Completion (OPENAI_MODEL cfg)
                  (Turn (py "system") SYSTEM_PROMPT :: history w uid) 700;
                Reply m (strip c)]
          ∧ history w' uid = deque_push (history w uid) 24 (Turn (py "assistant") (strip c))
      end.
Proof.
  intros Hwf.
  destruct (build_messages_spec uid SYSTEM_PROMPT w Hwf)
    as (w2 & l & xs & E2 & Hwf2 & Hl & Hrep & Hh2 & Hio2 & Hio2').
  rewrite (bind_ok _ _ _ _ _ E2).
  pose proof (call_openai_spec l xs _ 700 w2 Hl Hrep) as Ec.
  destruct (create ext (OPENAI_MODEL cfg) (Turn (py "system") SYSTEM_PROMPT :: history w uid) 700)
    as [c|] eqn:Hc.
  - match type of Ec with _ = (_, ?w3) =>
      destruct (push_assistant_spec uid (strip c) w3)
        as (w4 & E4 & Hwf4 & Hh4 & Ho4 & Hio4 & Hio4')
    end; [by apply (wf_io w2)|].
    cbn [trace files] in Hio4, Hio4'. rewrite history_io in Hh4.
    eexists. split.
    { erewrite try_ok; [reflexivity|].
      rewrite (bind_ok _ _ _ _ _ Ec), (bind_ok _ _ _ _ _ E4).
      unfold reply_to. by rewrite emit_eq. }
    cbn [heap user_context files trace]. split_and!.
    + by apply (wf_io w4).
    + intros u Hne. rewrite history_io, Ho4 by done. by rewrite history_io, Hh2.
    + congruence.
    + rewrite Hio4, Hio2. by rewrite <- !app_assoc.
    + by rewrite history_io, Hh4, Hh2.
  - eexists. split.
    { erewrite try_raise; [|by rewrite (bind_raise _ _ _ _ _ Ec)].
      unfold reply_to. by rewrite emit_eq. }
    cbn [heap user_context files trace]. split_and!.
    + by apply (wf_io w2).
    + intros u Hne. by rewrite history_io, Hh2.
    + congruence.
    + rewrite Hio2. by rewrite <- !app_assoc.
    + by rewrite history_io, Hh2.
Qed.

(** In the last branch the user's text is appended before the completion
    call, so the prompt ends with it. *)
Lemma handle_text_plain m w :
  wf w → plain_text lower m →
  ∃ w' h1,
    handle_text lower cfg ext m w = (Ok tt, w')
    ∧ wf w'
    ∧ (∀ u, u ≠ from_user_id m → history w' u = history w u)
    ∧ files w' = files w
    ∧ h1 = deque_push (history w (from_user_id m)) 24
             (Turn (py "user") (strip (text m)))
    ∧ match create ext (OPENAI_MODEL cfg)
              (Turn (py "system") SYSTEM_PROMPT :: h1) 700 with
      | None =>
          trace w' =
            trace w
            ++ [Completion (OPENAI_MODEL cfg)
                  (Turn (py "system") SYSTEM_PROMPT :: h1) 700;
                Reply m (py "Lỗi khi gọi AI. Thử lại sau.")]
          ∧ history w' (from_user_id m) = h1
      | Some c =>
          trace w' =
            trace w
            ++ [Completion (OPENAI_MODEL cfg)
                  (Turn (py "system") SYSTEM_PROMPT :: h1) 700;
                Reply m (strip c)]
          ∧ history w' (from_user_id m) =
              deque_push h1 24 (Turn (py "assistant") (strip c))
      end.
Proof.
  intros Hwf (Hf & He & Hr).
  unfold fetch_guard, extract_guard, report_guard in *.
  unfold handle_text. cbv zeta. rewrite Hf, He, Hr.
  destruct (push_user_spec (from_user_id m) (strip (text m)) w Hwf)
    as (w1 & E1 & Hwf1 & Hh1 & Ho1 & Hio1 & Hio1').
  rewrite (bind_ok _ _ _ _ _ E1).
  destruct (completion_flow (from_user_id m) m (py "Lỗi khi gọi AI. Thử lại sau.") w1 Hwf1)
    as (w' & E & Hwf' & Ho & Hf' & H).
  rewrite Hh1, Hio1 in H.
  exists w'. eexists. split_and!; [done|done| |congruence|reflexivity|exact H].
  intros u Hne. rewrite Ho by done. by apply Ho1.
Qed.

(** ** The extraction branch *)

Lemma handle_text_extract m w :
  wf w → extract_request lower m →
  ∃ w' h1,
    handle_text lower cfg ext m w = (Ok tt, w')
    ∧ wf w'
    ∧ (∀ u, u ≠ from_user_id m → history w' u = history w u)
    ∧ files w' = files w
    ∧ h1 = deque_push (history w (from_user_id m)) 24
             (Turn (py "user") (py "[Yêu cầu trích xuất PDF] " ++ strip (text m)))
    ∧ match create ext (OPENAI_MODEL cfg)
              (Turn (py "system") SYSTEM_PROMPT :: h1) 700 with
      | None =>
          trace w' =
            trace w
            ++ [Reply m (py "Bắt đầu trích xuất PDF (nếu có).");
                Completion (OPENAI_MODEL cfg)
                  (Turn (py "system") SYSTEM_PROMPT :: h1) 700;
                Reply m (py "Lỗi khi trích xuất.")]
          ∧ history w' (from_user_id m) = h1
      | Some c =>
          trace w' =
            trace w
            ++ [Reply m (py "Bắt đầu trích xuất PDF (nếu có).");
                Completion (OPENAI_MODEL cfg)
                  (Turn (py "system") SYSTEM_PROMPT :: h1) 700;
                Reply m (strip c)]
          ∧ history w' (from_user_id m) =
              deque_push h1 24 (Turn (py "assistant") (strip c))
      end.
Proof.
  intros Hwf (Hf & He).
  unfold fetch_guard, extract_guard in *.
  unfold handle_text. cbv zeta. rewrite Hf, He.
  rewrite (bind_ok _ _ _ _ _ (reply_to_eq _ _ _)).
  match goal with |- context [(push_user ?u ?t ≫= _) ?w0] =>
    destruct (push_user_spec u t w0) as (w1 & E1 & Hwf1 & Hh1 & Ho1 & Hio1 & Hio1')
  end; [by apply (wf_io w)|].
  rewrite (bind_ok _ _ _ _ _ E1).
  cbn [trace files] in Hio1, Hio1'. rewrite history_io in Hh1.
  destruct (completion_flow (from_user_id m) m (py "Lỗi khi trích xuất.") w1 Hwf1)
    as (w' & E & Hwf' & Ho & Hf' & H).
  rewrite Hh1, Hio1 in H.
  exists w'. eexists. split_and!; [done|done| |congruence|reflexivity|].
  - intros u Hne. rewrite Ho by done. by rewrite Ho1, history_io.
  - destruct (create _ _ _ _); destruct H as [Htr Hh]; split; try done;
      rewrite Htr; by rewrite <- !app_assoc.
Qed.

(** ** Every text message is handled without an exception *)

Lemma handle_text_total m w :
  wf w →
  ∃ w', handle_text lower cfg ext m w = (Ok tt, w') ∧ wf w'
        ∧ ∀ u, u ≠ from_user_id m → history w' u = history w u.
Proof.
  intros Hwf.
  destruct (fetch_guard lower (strip (text m))) eqn:Hf.
  { destruct (handle_text_fetch m w Hwf Hf) as (rest & w' & _ & E & Hwf' & _ & _ & Ho & _).
    eauto. }
  destruct (extract_guard lower (strip (text m))) eqn:He.
  { destruct (handle_text_extract m w Hwf (conj Hf He)) as (w' & h1 & E & Hwf' & Ho & _).
    eauto. }
  destruct (report_guard lower (strip (text m))) eqn:Hr.
  - destruct (handle_text_report m w Hwf (conj Hf (conj He Hr))) as (w' & E & Hwf' & Ho & _).
    eauto.
  - destruct (handle_text_plain m w Hwf (conj Hf (conj He Hr))) as (w' & h1 & E & Hwf' & Ho & _).
    eauto.
Qed.

End Handlers.

(** * The router and the renderer *)

(** C3, as the code has it. A text that, stripped of surrounding whitespace
    and lower-cased, starts with the fetch keyword is handled by the fetch
    branch, whatever else it contains.  The rest of the text after the first
    space, stripped, is the URL: the handler answers with the fetch notice
    for it, hands it to [fetch_url_text] (which makes the request when
    fetching is enabled), and answers with the preview of the snippet or with
    the failure notice.  It makes no completion call and writes no report;
    it appends the web-sourced turn when there is a snippet and nothing
    otherwise, and the text itself is never appended. *)
Theorem fetch_takes_precedence
    (lower : str → str) (cfg : config) (ext : services) (m : message) (w : world) :
  (∀ s, 32 ∈ lower s → 32 ∈ s) →
  wf w →
  fetch_guard lower (strip (text m)) = true →
  ∃ rest w',
    split1 (strip (text m)) !! 1%nat = Some rest
    ∧ handle_text lower cfg ext m w = (Ok tt, w')
    ∧ trace w' =
        trace w
        ++ [Reply m (py "Đang fetch nội dung từ: " ++ strip rest ++ py " (nếu chức năng bật)")]
        ++ (if WEB_SCRAPE_ENABLED cfg then [HttpGet (strip rest)] else [])
        ++ [Reply m
              (if truthy (fetched cfg ext (strip rest)) then
                 py "Trích xuất nội dung (rút gọn):" ++ nl
                 ++ take 800 (fetched cfg ext (strip rest))
               else
                 py "Không lấy được nội dung. Chức năng crawl có thể tắt hoặc URL không cho phép.")]
    ∧ completions (drop (length (trace w)) (trace w')) = []
    ∧ files w' = files w
    ∧ history w' (from_user_id m) =
        (if truthy (fetched cfg ext (strip rest)) then
           deque_push (history w (from_user_id m)) 24
             (Turn (py "user") (py "[WEB] " ++ fetched cfg ext (strip rest)))
         else history w (from_user_id m))
    ∧ (∀ u, u ≠ from_user_id m → history w' u = history w u).
Proof.
  intros Hsp Hwf Hg.
  destruct (handle_text_fetch lower cfg ext Hsp m w Hwf Hg)
    as (rest & w' & Hrest & E & _ & Htr & Hh & Ho & Hf).
  exists rest, w'. unfold fetch_events in Htr.
  split_and!; [done|done|exact Htr| |done|done|done].
  rewrite Htr, drop_app_length.
  by destruct (WEB_SCRAPE_ENABLED cfg).
Qed.

(** C4. With web fetching disabled, a fetch command is answered by the
    notice and then by the reply that no content was retrieved, and the
    store is left untouched: no turn is appended. *)
Theorem fetch_disabled_appends_nothing
    (lower : str → str) (cfg : config) (ext : services) (m : message) (w : world) :
  (∀ s, 32 ∈ lower s → 32 ∈ s) →
  WEB_SCRAPE_ENABLED cfg = false →
  fetch_guard lower (strip (text m)) = true →
  ∃ rest,
    split1 (strip (text m)) !! 1%nat = Some rest
    ∧ handle_text lower cfg ext m w =
        (Ok tt,
         World (heap w) (user_context w) (files w)
           (trace w
            ++ [Reply m (py "Đang fetch nội dung từ: " ++ strip rest ++ py " (nếu chức năng bật)");
                Reply m (py "Không lấy được nội dung. Chức năng crawl có thể tắt hoặc URL không cho phép.")])).
Proof.
  intros Hsp Hoff Hg. destruct (fetch_guard_split lower Hsp _ Hg) as [rest Hrest].
  exists rest. split; [done|].
  unfold handle_text. cbv zeta. unfold fetch_guard in Hg. rewrite Hg.
  unfold getitem. rewrite Hrest.
  unfold mbind at 1, M_bind at 1, mret at 1, M_ret at 1.
  unfold reply_to. rewrite (bind_ok _ _ _ _ _ (emit_eq _ _)).
  rewrite (bind_ok _ _ _ _ _ (fetch_url_text_spec _ _ _ _)).
  unfold fetched, fetch_events. rewrite Hoff. cbn [truthy].
  rewrite emit_eq. cbn [heap user_context files trace].
  by rewrite app_nil_r, <- app_assoc.
Qed.

(** C5. When the completion call fails on a report request, the user gets
    the notice and then the static failure reply, no file is written, and
    every history, the user's own included, is as before: no assistant turn
    is appended. *)
Theorem report_failure_leaves_history
    (lower : str → str) (cfg : config) (ext : services) (m : message) (w : world) :
  wf w →
  report_request lower m →
  create ext (OPENAI_MODEL cfg)
    (Turn (py "system") SYSTEM_PROMPT :: history w (from_user_id m)) 900 = None →
  ∃ w',
    handle_text lower cfg ext m w = (Ok tt, w')
    ∧ trace w' =
        trace w
        ++ [Reply m (py "Đang tạo báo cáo PDF...");
            Completion (OPENAI_MODEL cfg)
              (Turn (py "system") SYSTEM_PROMPT :: history w (from_user_id m)) 900;
            Reply m (py "Lỗi khi tạo báo cáo.")]
    ∧ files w' = files w
    ∧ ∀ u, history w' u = history w u.
Proof.
  intros Hwf Hreq Hc.
  destruct (handle_text_report lower cfg ext m w Hwf Hreq) as (w' & E & _ & Ho & H).
  rewrite Hc in H. destruct H as (Htr & Hf & Hh).
  exists w'. split_and!; [done|done|done|].
  intros u. destruct (decide (u = from_user_id m)) as [->|Hne]; [done|by apply Ho].
Qed.


(** C8, as the code has it. The web-sourced turn holds the whole snippet that
    [fetch_url_text] returned, which is at most 3000 code points long; only
    the reply is cut to the 800 code points of the preview. *)
Theorem web_turn_holds_whole_snippet
    (lower : str → str) (cfg : config) (ext : services) (m : message) (w : world)
    (rest : str) :
  (∀ s, 32 ∈ lower s → 32 ∈ s) →
  wf w →
  fetch_guard lower (strip (text m)) = true →
  split1 (strip (text m)) !! 1%nat = Some rest →
  truthy (fetched cfg ext (strip rest)) = true →
  ∃ w',
    handle_text lower cfg ext m w = (Ok tt, w')
    ∧ history w' (from_user_id m) =
        deque_push (history w (from_user_id m)) 24
          (Turn (py "user") (py "[WEB] " ++ fetched cfg ext (strip rest)))
    ∧ last (trace w') =
        Some (Reply m (py "Trích xuất nội dung (rút gọn):" ++ nl
                       ++ take 800 (fetched cfg ext (strip rest))))
    ∧ (length (fetched cfg ext (strip rest)) ≤ 3000)%nat.
Proof.
  intros Hsp Hwf Hg Hrest Hs.
  destruct (handle_text_fetch lower cfg ext Hsp m w Hwf Hg)
    as (rest' & w' & Hrest' & E & _ & Htr & Hh & _).
  assert (rest' = rest) as -> by congruence.
  rewrite Hs in Htr, Hh.
  exists w'. split_and!; [done|done| |].
  - rewrite Htr, !app_assoc. apply last_snoc.
  - unfold fetched. destruct (WEB_SCRAPE_ENABLED cfg); [|simpl; lia].
    destruct (get_text ext (strip rest)); [|simpl; lia].
    rewrite length_take. lia.
Qed.

(** C9. A report request whose completion call succeeds appends one turn to
    the user's history, the assistant's answer: the prompt sent is the
    history as it was, and the request text is appended nowhere.  The answer
    is appended before the report is rendered, so it is there whether the
    rendering gets through (the reply names the report) or not (the reply is
    the failure notice).  A plain text message, in contrast, is appended as
    a user turn before the completion call, so the prompt ends with it. *)
Theorem report_appends_only_the_answer
    (lower : str → str) (cfg : config) (ext : services) (m : message) (w : world)
    (c : str) :
  wf w →
  report_request lower m →
  create ext (OPENAI_MODEL cfg)
    (Turn (py "system") SYSTEM_PROMPT :: history w (from_user_id m)) 900 = Some c →
  (∃ w',
     handle_text lower cfg ext m w = (Ok tt, w')
     ∧ history w' (from_user_id m) =
         deque_push (history w (from_user_id m)) 24 (Turn (py "assistant") (strip c))
     ∧ (∀ u, u ≠ from_user_id m → history w' u = history w u)
     ∧ trace w' =
         trace w
         ++ [Reply m (py "Đang tạo báo cáo PDF...");
             Completion (OPENAI_MODEL cfg)
               (Turn (py "system") SYSTEM_PROMPT :: history w (from_user_id m)) 900]
         ++ made_dirs cfg
         ++ [Reply m
               (if render_ok cfg ext (from_user_id m) (py "Báo cáo từ Bot") (strip c)
                then py "Báo cáo tạo xong: "
                     ++ (report_file cfg ext (from_user_id m)
                           (py "Báo cáo từ Bot") (strip c)).1
                else py "Lỗi khi tạo báo cáo.")])
  ∧ (∀ m',
       plain_text lower m' →
       ∃ w' new,
         handle_text lower cfg ext m' w = (Ok tt, w')
         ∧ trace w' =
             trace w
             ++ Completion (OPENAI_MODEL cfg)
                  (Turn (py "system") SYSTEM_PROMPT
                   :: deque_push (history w (from_user_id m')) 24
                        (Turn (py "user") (strip (text m')))) 700
                :: new).
Proof.
  intros Hwf Hreq Hc. split.
  - destruct (handle_text_report lower cfg ext m w Hwf Hreq) as (w' & E & _ & Ho & H).
    rewrite Hc in H. destruct H as (Htr & Hf & Hh).
    exists w'. split_and!; [done|done|done|exact Htr].
  - intros m' Hplain.
    destruct (handle_text_plain lower cfg ext m' w Hwf Hplain)
      as (w' & h1 & E & _ & _ & _ & -> & H).
    exists w'. destruct (create ext _ _ 700); destruct H as [Htr _]; eauto.
Qed.

(** ** The concrete runtime *)

Lemma lower_cp_space c : lower_cp c = 32 → c = 32.
Proof.
  unfold lower_cp.
  repeat match goal with
         | |- context [if ?b then _ else _] => destruct b eqn:?
         end;
    repeat match goal with
           | H : _ && _ = true |- _ => apply andb_prop in H as [? ?]
           | H : (_ <=? _) = true |- _ => apply N.leb_le in H
           | H : _ || _ = true |- _ => apply orb_prop in H as [?|?]
           | H : (_ =? _) = true |- _ => apply N.eqb_eq in H
           end; lia.
Qed.

Lemma lower_vi_space s : 32 ∈ lower_vi s → 32 ∈ s.
Proof.
  unfold lower_vi. intros (c & Hc & Hin)%list_elem_of_fmap.
  symmetry in Hc. by apply lower_cp_space in Hc as ->.
Qed.

Lemma wf_one_turn : wf one_turn.
Proof.
  destruct (push_user_spec 7 (py "xin chào") init wf_init) as (w' & E & Hwf & _).
  unfold one_turn. by rewrite E.
Qed.

(** ** The theorems at sample inputs *)

Lemma history_keeps_last_24_witness :
  wf init ∧ (24 < length appends25)%nat
  ∧ ∃ w', do_appends 7 appends25 init = (Ok tt, w')
          ∧ history w' 7 = last_n 24 (map appended appends25)
          ∧ length (history w' 7) = 24%nat.
Proof.
  split; [exact wf_init|]. split; [vm_compute; lia|].
  apply (history_keeps_last_24 7 appends25 init wf_init). vm_compute; lia.
Defined.

Lemma reset_then_snapshot_empty_witness :
  wf one_turn
  ∧ history one_turn 7 = [Turn (py "user") (py "xin chào")]
  ∧ ∃ w1 w2 l,
      cmd_start fetch_example one_turn = (Ok tt, w1)
      ∧ history w1 7 = []
      ∧ build_messages 7 SYSTEM_PROMPT w1 = (Ok l, w2)
      ∧ list_turns w2 l = [Turn (py "system") SYSTEM_PROMPT]
      ∧ history w2 7 = [].
Proof.
  split; [exact wf_one_turn|]. split; [vm_compute; reflexivity|].
  exact (reset_then_snapshot_empty fetch_example one_turn wf_one_turn).
Defined.

Lemma snapshot_is_a_fresh_list_witness :
  wf one_turn
  ∧ ∃ w1 l w2 s d x,
      build_messages 7 SYSTEM_PROMPT one_turn = (Ok l, w1)
      ∧ list_turns w1 l = Turn (py "system") SYSTEM_PROMPT :: history one_turn 7
      ∧ list_mutate l (λ _, []) w1 = (Ok tt, w2)
      ∧ (∀ u, history w2 u = history one_turn u)
      ∧ heap w1 !! l = Some (OList [s; x])
      ∧ user_context w1 !! 7%Z = Some d
      ∧ heap w1 !! d = Some (ODeque [x] 24).
Proof.
  split; [exact wf_one_turn|].
  destruct (snapshot_is_a_fresh_list 7 SYSTEM_PROMPT (λ _, []) one_turn wf_one_turn)
    as (w1 & l & w2 & s & d & items & E & Ht & _ & Em & Hh & _ & Hl & Hd & Hitems).
  assert (E' := E). vm_compute in E'. injection E' as <- <-.
  assert (Hd' := Hd). vm_compute in Hd'. injection Hd' as <-.
  assert (Hi := Hitems). vm_compute in Hi. injection Hi as <-.
  eexists _, _, w2, s, _, _.
  split_and!; [exact E|exact Ht|exact Em|exact Hh|exact Hl|exact Hd|exact Hitems].
Defined.

(** C7, as stated, fails: the snapshot is shallow, so an assignment into one
    of its items changes the stored history. *)
Lemma snapshot_shares_turn_dicts :
  ∃ w1 l w2,
    build_messages 7 SYSTEM_PROMPT one_turn = (Ok l, w1)
    ∧ list_item_set_content l 1 (py "khác") w1 = (Ok tt, w2)
    ∧ history w1 7 = [Turn (py "user") (py "xin chào")]
    ∧ history w2 7 = [Turn (py "user") (py "khác")]
    ∧ history w2 7 ≠ history w1 7.
Proof.
  do 3 eexists.
  split_and!; [vm_compute; reflexivity..|].
  intros H. vm_compute in H. discriminate H.
Qed.

Lemma store_ops_leave_other_users_witness :
  wf one_turn ∧ (7 ≠ 8)%Z
  ∧ (∃ w', ensure_context 8 one_turn = (Ok tt, w') ∧ history w' 7 = history one_turn 7)
  ∧ (∃ w', push_user 8 (py "a") one_turn = (Ok tt, w') ∧ history w' 7 = history one_turn 7)
  ∧ (∃ w', push_assistant 8 (py "a") one_turn = (Ok tt, w')
           ∧ history w' 7 = history one_turn 7)
  ∧ (∃ w', cmd_start (Message 8 (py "a")) one_turn = (Ok tt, w')
           ∧ history w' 7 = history one_turn 7).
Proof.
  split; [exact wf_one_turn|]. split; [lia|].
  apply (store_ops_leave_other_users 8 7 (py "a") one_turn wf_one_turn). lia.
Defined.

Lemma fetch_takes_precedence_witness :
  wf init
  ∧ fetch_guard lower_vi (strip (text fetch_report)) = true
  ∧ report_guard lower_vi (strip (text fetch_report)) = true
  ∧ ∃ w',
      handle_text lower_vi cfg_web (ext_up [] long_page) fetch_report init = (Ok tt, w')
      ∧ trace w' =
          [Reply fetch_report
             (py "Đang fetch nội dung từ: http://example.com/báo cáo (nếu chức năng bật)");
           HttpGet (py "http://example.com/báo cáo");
           Reply fetch_report
             (py "Trích xuất nội dung (rút gọn):" ++ nl ++ take 800 long_page)]
      ∧ files w' = ∅
      ∧ history w' 7 = [Turn (py "user") (py "[WEB] " ++ long_page)].
Proof.
  split; [exact wf_init|]. split; [vm_compute; reflexivity|].
  split; [vm_compute; reflexivity|].
  destruct (fetch_takes_precedence lower_vi cfg_web (ext_up [] long_page) fetch_report init
              lower_vi_space wf_init)
    as (rest & w' & Hrest & E & Htr & _ & Hf & Hh & _); [vm_compute; reflexivity|].
  vm_compute in Hrest. injection Hrest as <-.
  exists w'. split_and!; [exact E| |exact Hf|].
  - etransitivity; [exact Htr|]. vm_compute. reflexivity.
  - etransitivity; [exact Hh|]. vm_compute. reflexivity.
Defined.

(** C3, as stated, fails: a text that starts with the fetch keyword and holds
    only whitespace behind it is stripped to the bare word, which the fetch
    test rejects; it goes to the last branch, is appended as a user turn and
    sent to the completion service. *)
Lemma blank_fetch_goes_to_completion :
  startswith (text fetch_blank) (py "fetch ") = true
  ∧ fetch_guard lower_vi (strip (text fetch_blank)) = false
  ∧ ∃ w',
      handle_text lower_vi cfg_web (ext_up (py "ok") long_page) fetch_blank init
        = (Ok tt, w')
      ∧ trace w' =
          [Completion (py "gpt-5")
             [Turn (py "system") SYSTEM_PROMPT; Turn (py "user") (py "fetch")] 700;
           Reply fetch_blank (py "ok")]
      ∧ history w' 7 =
          [Turn (py "user") (py "fetch"); Turn (py "assistant") (py "ok")].
Proof.
  split; [vm_compute; reflexivity|]. split; [vm_compute; reflexivity|].
  eexists. split_and!; vm_compute; reflexivity.
Qed.

Lemma fetch_disabled_appends_nothing_witness :
  WEB_SCRAPE_ENABLED cfg0 = false
  ∧ fetch_guard lower_vi (strip (text fetch_example)) = true
  ∧ ∃ rest,
      split1 (strip (text fetch_example)) !! 1%nat = Some rest
      ∧ handle_text lower_vi cfg0 ext_down fetch_example one_turn =
          (Ok tt,
           World (heap one_turn) (user_context one_turn) (files one_turn)
             (trace one_turn
              ++ [Reply fetch_example
                    (py "Đang fetch nội dung từ: " ++ strip rest ++ py " (nếu chức năng bật)");
                  Reply fetch_example
                    (py "Không lấy được nội dung. Chức năng crawl có thể tắt hoặc URL không cho phép.")])).
Proof.
  split; [reflexivity|]. split; [vm_compute; reflexivity|].
  apply (fetch_disabled_appends_nothing lower_vi cfg0 ext_down fetch_example one_turn
           lower_vi_space); [reflexivity|vm_compute; reflexivity].
Defined.

Lemma report_failure_leaves_history_witness :
  wf one_turn
  ∧ report_request lower_vi report_example
  ∧ ∃ w',
      handle_text lower_vi cfg0 ext_down report_example one_turn = (Ok tt, w')
      ∧ files w' = files one_turn
      ∧ ∀ u, history w' u = history one_turn u.
Proof.
  assert (Hreq : report_request lower_vi report_example)
    by (repeat split; vm_compute; reflexivity).
  split; [exact wf_one_turn|]. split; [exact Hreq|].
  destruct (report_failure_leaves_history lower_vi cfg0 ext_down report_example one_turn
              wf_one_turn Hreq eq_refl)
    as (w' & E & _ & Hf & Hh).
  exists w'. split_and!; [exact E|exact Hf|exact Hh].
Defined.



Lemma web_turn_holds_whole_snippet_witness :
  wf init
  ∧ fetch_guard lower_vi (strip (text fetch_example)) = true
  ∧ truthy (fetched cfg_web (ext_up [] long_page) (py "http://example.com")) = true
  ∧ ∃ w',
      handle_text lower_vi cfg_web (ext_up [] long_page) fetch_example init = (Ok tt, w')
      ∧ history w' 7 = [Turn (py "user") (py "[WEB] " ++ long_page)].
Proof.
  split; [exact wf_init|]. split; [vm_compute; reflexivity|].
  split; [vm_compute; reflexivity|].
  destruct (web_turn_holds_whole_snippet lower_vi cfg_web (ext_up [] long_page)
              fetch_example init (py "http://example.com") lower_vi_space wf_init)
    as (w' & E & Hh & _);
    [vm_compute; reflexivity|vm_compute; reflexivity|vm_compute; reflexivity|].
  exists w'. split; [exact E|].
  etransitivity; [exact Hh|]. vm_compute. reflexivity.
Defined.

(** C8, as stated, fails: with a page of 801 letters the reply shows 800 of
    them and the appended turn holds all 801. *)
Lemma web_turn_is_not_the_preview :
  ∃ w',
    handle_text lower_vi cfg_web (ext_up [] long_page) fetch_example init = (Ok tt, w')
    ∧ fetched cfg_web (ext_up [] long_page) (py "http://example.com") = long_page
    ∧ last (trace w') =
        Some (Reply fetch_example
                (py "Trích xuất nội dung (rút gọn):" ++ nl ++ take 800 long_page))
    ∧ history w' 7 = [Turn (py "user") (py "[WEB] " ++ long_page)]
    ∧ history w' 7 ≠ [Turn (py "user") (py "[WEB] " ++ take 800 long_page)].
Proof.
  eexists. split; [vm_compute; reflexivity|].
  split; [vm_compute; reflexivity|]. split; [vm_compute; reflexivity|].
  split; [vm_compute; reflexivity|].
  intros H.
  apply (f_equal (λ h, length (content (default (Turn [] []) (head h))))) in H.
  vm_compute in H. discriminate H.
Qed.

Lemma report_appends_only_the_answer_witness :
  wf one_turn
  ∧ report_request lower_vi report_example
  ∧ plain_text lower_vi (Message 7 (py "xe bị móp"))
  ∧ (∃ w',
       handle_text lower_vi cfg0 (ext_up (py " Xong. ") []) report_example one_turn
         = (Ok tt, w')
       ∧ history w' 7 =
           [Turn (py "user") (py "xin chào"); Turn (py "assistant") (py "Xong.")]
       ∧ last (trace w') =
           Some (Reply report_example
                   (py "Báo cáo tạo xong: /tmp/telegram_media/report_7_1700000000.pdf.txt")))
  ∧ (∃ w',
       handle_text lower_vi cfg0 (ext_up (py " Xong. ") []) (Message 7 (py "xe bị móp"))
         one_turn = (Ok tt, w')
       ∧ head (trace w') =
           Some (Completion (py "gpt-5")
                   [Turn (py "system") SYSTEM_PROMPT;
                    Turn (py "user") (py "xin chào");
                    Turn (py "user") (py "xe bị móp")] 700)).
Proof.
  assert (Hreq : report_request lower_vi report_example)
    by (repeat split; vm_compute; reflexivity).
  assert (Hplain : plain_text lower_vi (Message 7 (py "xe bị móp")))
    by (repeat split; vm_compute; reflexivity).
  split; [exact wf_one_turn|]. split; [exact Hreq|]. split; [exact Hplain|].
  destruct (report_appends_only_the_answer lower_vi cfg0 (ext_up (py " Xong. ") [])
              report_example one_turn (py " Xong. ") wf_one_turn Hreq eq_refl)
    as [(w' & E & Hh & _ & Htr) Hdefault].
  split.
  - exists w'. split_and!; [exact E| |].
    + etransitivity; [exact Hh|]. vm_compute. reflexivity.
    + rewrite Htr. vm_compute. reflexivity.
  - destruct (Hdefault _ Hplain) as (w'' & new & E' & Htr').
    exists w''. split; [exact E'|]. rewrite Htr'. vm_compute. reflexivity.
Defined.

(** * Further properties of the store *)

(** X1. Whatever is appended, a history never holds more than 24 turns: after
    a run of appends it holds the old turns plus the new ones, up to 24. *)
Theorem appends_respect_capacity (uid : Z) (cs : list append_call) (w : world) :
  wf w →
  ∃ w', do_appends uid cs w = (Ok tt, w')
        ∧ wf w'
        ∧ length (history w' uid)
          = (24 `min` (length (history w uid) + length cs))%nat.
Proof.
  intros Hwf.
  destruct (do_appends_spec uid cs w Hwf) as (w' & E & Hwf' & Hh & _).
  exists w'. split_and!; [done|done|].
  rewrite Hh, last_n_length, length_app, length_map. lia.
Qed.

Lemma appends_respect_capacity_witness :
  wf one_turn
  ∧ ∃ w', do_appends 7 appends25 one_turn = (Ok tt, w')
          ∧ length (history w' 7) = 24%nat.
Proof.
  split; [exact wf_one_turn|].
  destruct (appends_respect_capacity 7 appends25 one_turn wf_one_turn)
    as (w' & E & _ & Hlen).
  exists w'. split; [exact E|]. rewrite Hlen. vm_compute. reflexivity.
Defined.

(** X2. While the capacity is not exceeded nothing is evicted: the appended
    turns follow the old ones, in the order of the calls. *)
Theorem appends_below_capacity_keep_all (uid : Z) (cs : list append_call) (w : world) :
  wf w →
  (length (history w uid) + length cs ≤ 24)%nat →
  ∃ w', do_appends uid cs w = (Ok tt, w')
        ∧ history w' uid = history w uid ++ map appended cs.
Proof.
  intros Hwf Hlen.
  destruct (do_appends_spec uid cs w Hwf) as (w' & E & _ & Hh & _).
  exists w'. split; [done|].
  rewrite Hh. apply last_n_all. rewrite length_app, length_map. lia.
Qed.

Lemma appends_below_capacity_keep_all_witness :
  wf one_turn
  ∧ (length (history one_turn 7) + length [PushAssistant (py "chào"); PushUser (py "xe")]
     ≤ 24)%nat
  ∧ ∃ w', do_appends 7 [PushAssistant (py "chào"); PushUser (py "xe")] one_turn = (Ok tt, w')
          ∧ history w' 7 =
              [Turn (py "user") (py "xin chào");
               Turn (py "assistant") (py "chào");
               Turn (py "user") (py "xe")].
Proof.
  assert (Hlen : (length (history one_turn 7)
                  + length [PushAssistant (py "chào"); PushUser (py "xe")] ≤ 24)%nat)
    by (vm_compute; lia).
  split; [exact wf_one_turn|]. split; [exact Hlen|].
  destruct (appends_below_capacity_keep_all 7 [PushAssistant (py "chào"); PushUser (py "xe")]
              one_turn wf_one_turn Hlen) as (w' & E & Hh).
  exists w'. split; [exact E|]. rewrite Hh. vm_compute. reflexivity.
Defined.

(** X3. [ensure_context] is idempotent: it always returns, the user has an
    entry afterwards, and a second call changes nothing more. *)
Theorem ensure_context_idempotent (uid : Z) (w : world) :
  (∃ w', ensure_context uid w = (Ok tt, w')
         ∧ is_Some (user_context w' !! uid)
         ∧ ensure_context uid w' = (Ok tt, w'))
  ∧ (ensure_context uid;; ensure_context uid) w = ensure_context uid w.
Proof.
  assert (Hpresent : ∀ w0, is_Some (user_context w0 !! uid) →
                          ensure_context uid w0 = (Ok tt, w0)).
  { intros w0 Hs. unfold ensure_context, user_context_contains, mbind, M_bind.
    by rewrite bool_decide_eq_true_2. }
  assert (Hrun : ∃ w', ensure_context uid w = (Ok tt, w')
                       ∧ is_Some (user_context w' !! uid)).
  { destruct (user_context w !! uid) as [d|] eqn:Hd.
    - exists w. split; [apply Hpresent|]; rewrite Hd; eauto.
    - eexists. split.
      + unfold ensure_context, user_context_contains, mbind, M_bind.
        rewrite bool_decide_eq_false_2 by (rewrite Hd; by intros [? ?]).
        reflexivity.
      + simpl. rewrite lookup_insert_eq. eauto. }
  destruct Hrun as (w' & E & Hs). split.
  - exists w'. split_and!; [done|done|by apply Hpresent].
  - rewrite (bind_ok _ _ _ _ _ E), E. by apply Hpresent.
Qed.

(** X4. After a reset the history holds only what was appended since, cut to
    its last 24 turns. *)
Theorem reset_then_appends (m : message) (cs : list append_call) (w : world) :
  wf w →
  ∃ w1 w2,
    cmd_start m w = (Ok tt, w1)
    ∧ do_appends (from_user_id m) cs w1 = (Ok tt, w2)
    ∧ history w2 (from_user_id m) = last_n 24 (map appended cs).
Proof.
  intros Hwf.
  destruct (cmd_start_spec m w Hwf) as (w1 & E1 & Hwf1 & Hh1 & _).
  destruct (do_appends_spec (from_user_id m) cs w1 Hwf1) as (w2 & E2 & _ & Hh2 & _).
  exists w1, w2. split_and!; [done|done|]. by rewrite Hh2, Hh1.
Qed.

Lemma reset_then_appends_witness :
  wf one_turn
  ∧ ∃ w1 w2,
      cmd_start fetch_example one_turn = (Ok tt, w1)
      ∧ do_appends 7 [PushUser (py "xe")] w1 = (Ok tt, w2)
      ∧ history w2 7 = [Turn (py "user") (py "xe")].
Proof.
  split; [exact wf_one_turn|].
  destruct (reset_then_appends fetch_example [PushUser (py "xe")] one_turn wf_one_turn)
    as (w1 & w2 & E1 & E2 & Hh).
  exists w1, w2. split_and!; [exact E1|exact E2|].
  etransitivity; [exact Hh|]. vm_compute. reflexivity.
Defined.

(** * Further properties of the router *)

(** ** Substrings and stripping *)

Lemma contains_split_inv s p : contains s p = true → ∃ a b, s = a ++ p ++ b.
Proof.
  induction s as [|c s IH]; intros H.
  - simpl in H. rewrite orb_false_r in H.
    apply startswith_app in H as [r ->]. by exists [], r.
  - cbn [contains] in H. apply orb_prop in H as [H|H].
    + apply startswith_app in H as [r ->]. by exists [], r.
    + destruct (IH H) as (a & b & ->). by exists (c :: a), b.
Qed.

Lemma contains_weaken s p q : contains s (p ++ q) = true → contains s q = true.
Proof.
  intros (a & b & ->)%contains_split_inv.
  apply (contains_split (a ++ p) q b). by rewrite <- !app_assoc.
Qed.

Lemma lstrip_head s c : head (lstrip s) = Some c → isspace c = false.
Proof.
  induction s as [|d s IH]; [done|]. cbn [lstrip].
  destruct (isspace d) eqn:Hd; [done|]. by intros [= <-].
Qed.

Lemma lstrip_fixed s : (∀ c, head s = Some c → isspace c = false) → lstrip s = s.
Proof.
  destruct s as [|c s]; [done|]. intros H. cbn [lstrip]. by rewrite (H c).
Qed.

Lemma lstrip_app_nonspace x c y :
  isspace c = false → lstrip (x ++ c :: y) = lstrip x ++ c :: y.
Proof.
  intros Hc. induction x as [|d x IH]; cbn [lstrip app]; [by rewrite Hc|].
  by destruct (isspace d).
Qed.

Lemma strip_head s c : head (strip s) = Some c → isspace c = false.
Proof.
  unfold strip, rstrip. destruct (lstrip s) as [|d r] eqn:E; [done|].
  assert (Hd : isspace d = false) by (apply (lstrip_head s); by rewrite E).
  rewrite reverse_cons, (lstrip_app_nonspace _ d []) by done.
  rewrite reverse_app. by intros [= <-].
Qed.

Lemma strip_last s c : last (strip s) = Some c → isspace c = false.
Proof. unfold strip, rstrip. rewrite last_reverse. apply lstrip_head. Qed.

Lemma strip_idemp s : strip (strip s) = strip s.
Proof.
  unfold strip at 1. rewrite (lstrip_fixed (strip s)) by apply strip_head.
  unfold rstrip at 1. unfold strip, rstrip. rewrite reverse_involutive.
  rewrite lstrip_fixed; [done|]. apply lstrip_head.
Qed.

(** X5. The report test comes down to one check: it holds exactly when the
    lower-case form of the text contains "báo cáo"; the two tests for
    "tạo báo cáo" add nothing. *)
Theorem report_guard_is_one_substring_test (lower : str → str) (text : str) :
  report_guard lower text = contains (lower text) (py "báo cáo").
Proof.
  unfold report_guard.
  destruct (contains (lower text) (py "báo cáo")) eqn:Hc; [by rewrite orb_true_r|].
  rewrite orb_false_r.
  assert (Hsplit : py "tạo báo cáo" = py "tạo " ++ py "báo cáo")
    by (vm_compute; reflexivity).
  destruct (contains (lower text) (py "tạo báo cáo")) eqn:Ht.
  { rewrite Hsplit in Ht. apply contains_weaken in Ht. congruence. }
  rewrite orb_false_r.
  destruct (startswith (lower text) (py "tạo báo cáo")) eqn:Hs; [|done].
  apply startswith_contains in Hs. congruence.
Qed.

(** X6. The answer that [call_openai] returns is stripped: it neither starts
    nor ends with whitespace, and stripping it again changes nothing. *)
Theorem call_openai_answer_is_stripped
    (cfg : config) (ext : services) (messages : loc) (max_tokens : nat)
    (w w' : world) (ans : str) :
  call_openai cfg ext messages max_tokens w = (Ok ans, w') →
  (∀ c, head ans = Some c → isspace c = false)
  ∧ (∀ c, last ans = Some c → isspace c = false)
  ∧ strip ans = ans.
Proof.
  unfold call_openai, mbind, M_bind.
  destruct (load messages w) as [[o|e] w1]; [|done].
  destruct o as [t|xs n|xs]; try done.
  destruct (load_turns xs w1) as [[ts|e] w2]; [|done]. simpl.
  destruct (create ext (OPENAI_MODEL cfg) ts max_tokens) as [c|]; [|done].
  intros [= <- <-]. split_and!.
  - apply strip_head.
  - apply strip_last.
  - apply strip_idemp.
Qed.

Lemma call_openai_answer_is_stripped_witness :
  ∃ l w1 w2 ans,
    build_messages 7 SYSTEM_PROMPT one_turn = (Ok l, w1)
    ∧ call_openai cfg0 (ext_up (py "  Xong. ") []) l 700 w1 = (Ok ans, w2)
    ∧ strip ans = ans
    ∧ ans = py "Xong.".
Proof.
  eexists _, _, _, _. split; [vm_compute; reflexivity|].
  match goal with |- ?E ∧ _ => assert (Hrun : E) by (vm_compute; reflexivity) end.
  split; [exact Hrun|].
  split; [|vm_compute; reflexivity].
  exact (proj2 (proj2 (call_openai_answer_is_stripped _ _ _ _ _ _ _ Hrun))).
Defined.

(** X7. [fetch_url_text] never raises and never touches the store or the
    files.  It returns at most 3000 code points, makes one request when
    fetching is enabled and none otherwise, and returns the empty string
    unless the request succeeded. *)
Theorem fetch_url_text_is_safe
    (cfg : config) (ext : services) (url : str) (w : world) :
  ∃ s,
    fetch_url_text cfg ext url w =
      (Ok s,
       World (heap w) (user_context w) (files w)
         (trace w ++ (if WEB_SCRAPE_ENABLED cfg then [HttpGet url] else [])))
    ∧ (length s ≤ 3000)%nat
    ∧ (s = []
       ∨ ∃ texts, WEB_SCRAPE_ENABLED cfg = true
                  ∧ get_text ext url = Some texts ∧ s = take 3000 texts).
Proof.
  exists (fetched cfg ext url). rewrite fetch_url_text_spec.
  unfold fetch_events, fetched. split_and!; [done| |].
  - destruct (WEB_SCRAPE_ENABLED cfg); [|simpl; lia].
    destruct (get_text ext url); [|simpl; lia]. rewrite length_take. lia.
  - destruct (WEB_SCRAPE_ENABLED cfg); [|by left].
    destruct (get_text ext url) as [texts|]; [|by left]. right. by exists texts.
Qed.



(** X9. In the extraction branch the request is appended as a tagged user
    turn before the completion call, and it stays there when the call fails.
    The branch comes before the report branch: no file is written even when
    the text also holds the report keyword. *)
Theorem extraction_appends_tagged_request
    (lower : str → str) (cfg : config) (ext : services) (m : message) (w : world) :
  wf w →
  extract_request lower m →
  ∃ w' h1,
    handle_text lower cfg ext m w = (Ok tt, w')
    ∧ files w' = files w
    ∧ h1 = deque_push (history w (from_user_id m)) 24
             (Turn (py "user") (py "[Yêu cầu trích xuất PDF] " ++ strip (text m)))
    ∧ match create ext (OPENAI_MODEL cfg)
              (Turn (py "system") SYSTEM_PROMPT :: h1) 700 with
      | None =>
          trace w' =
            trace w
            ++ [Reply m (py "Bắt đầu trích xuất PDF (nếu có).");
                Completion (OPENAI_MODEL cfg)
                  (Turn (py "system") SYSTEM_PROMPT :: h1) 700;
                Reply m (py "Lỗi khi trích xuất.")]
          ∧ history w' (from_user_id m) = h1
      | Some c =>
          trace w' =
            trace w
            ++ [Reply m (py "Bắt đầu trích xuất PDF (nếu có).");
                Completion (OPENAI_MODEL cfg)
                  (Turn (py "system") SYSTEM_PROMPT :: h1) 700;
                Reply m (strip c)]
          ∧ history w' (from_user_id m) =
              deque_push h1 24 (Turn (py "assistant") (strip c))
      end.
Proof.
  intros Hwf Hreq.
  destruct (handle_text_extract lower cfg ext m w Hwf Hreq)
    as (w' & h1 & E & _ & _ & Hf & Hh1 & H).
  exists w', h1. split_and!; done.
Qed.

Lemma extraction_appends_tagged_request_witness :
  wf one_turn
  ∧ extract_request lower_vi extract_report
  ∧ report_guard lower_vi (strip (text extract_report)) = true
  ∧ ∃ w',
      handle_text lower_vi cfg0 ext_down extract_report one_turn = (Ok tt, w')
      ∧ files w' = ∅
      ∧ history w' 7 =
          [Turn (py "user") (py "xin chào");
           Turn (py "user") (py "[Yêu cầu trích xuất PDF] Trích xuất báo cáo.pdf")].
Proof.
  assert (Hreq : extract_request lower_vi extract_report)
    by (split; vm_compute; reflexivity).
  split; [exact wf_one_turn|]. split; [exact Hreq|].
  split; [vm_compute; reflexivity|].
  destruct (extraction_appends_tagged_request lower_vi cfg0 ext_down extract_report one_turn
              wf_one_turn Hreq)
    as (w' & h1 & E & Hf & Hh1 & _ & Hh).
  exists w'. split_and!; [exact E|exact Hf|].
  etransitivity; [exact Hh|]. rewrite Hh1. vm_compute. reflexivity.
Defined.

(** X10. When the completion call fails on a plain text message, the user's
    text is already appended and stays in the history; no assistant turn is
    added and the user gets the static failure reply. *)
Theorem plain_failure_keeps_user_turn
    (lower : str → str) (cfg : config) (ext : services) (m : message) (w : world) :
  wf w →
  plain_text lower m →
  create ext (OPENAI_MODEL cfg)
    (Turn (py "system") SYSTEM_PROMPT
     :: deque_push (history w (from_user_id m)) 24
          (Turn (py "user") (strip (text m)))) 700 = None →
  ∃ w',
    handle_text lower cfg ext m w = (Ok tt, w')
    ∧ history w' (from_user_id m) =
        deque_push (history w (from_user_id m)) 24 (Turn (py "user") (strip (text m)))
    ∧ trace w' =
        trace w
        ++ [Completion (OPENAI_MODEL cfg)
              (Turn (py "system") SYSTEM_PROMPT
               :: deque_push (history w (from_user_id m)) 24
                    (Turn (py "user") (strip (text m)))) 700;
            Reply m (py "Lỗi khi gọi AI. Thử lại sau.")]
    ∧ files w' = files w.
Proof.
  intros Hwf Hplain Hc.
  destruct (handle_text_plain lower cfg ext m w Hwf Hplain)
    as (w' & h1 & E & _ & _ & Hf & -> & H).
  rewrite Hc in H. destruct H as [Htr Hh].
  exists w'. split_and!; done.
Qed.

Lemma plain_failure_keeps_user_turn_witness :
  wf one_turn
  ∧ plain_text lower_vi (Message 7 (py "  xe bị móp "))
  ∧ ∃ w',
      handle_text lower_vi cfg0 ext_down (Message 7 (py "  xe bị móp ")) one_turn = (Ok tt, w')
      ∧ history w' 7 =
          [Turn (py "user") (py "xin chào"); Turn (py "user") (py "xe bị móp")].
Proof.
  assert (Hplain : plain_text lower_vi (Message 7 (py "  xe bị móp ")))
    by (repeat split; vm_compute; reflexivity).
  split; [exact wf_one_turn|]. split; [exact Hplain|].
  destruct (plain_failure_keeps_user_turn lower_vi cfg0 ext_down
              (Message 7 (py "  xe bị móp ")) one_turn wf_one_turn Hplain eq_refl)
    as (w' & E & Hh & _).
  exists w'. split; [exact E|].
  etransitivity; [exact Hh|]. vm_compute. reflexivity.
Defined.

(** X11. The text handler catches what its collaborators raise.  Replies
    are taken to be delivered ([bot.reply_to] is an event of the trace; a
    reply that Telegram refuses is outside the model).  Then, whatever the
    message and whatever the completion service, the fetch and the renderer
    do, the handler returns, the store keeps its invariant, the user's
    history holds at most 24 turns and the other users' histories are
    untouched. *)
Theorem text_handler_never_raises
    (lower : str → str) (cfg : config) (ext : services) (m : message) (w : world) :
  (∀ s, 32 ∈ lower s → 32 ∈ s) →
  wf w →
  ∃ w',
    handle_text lower cfg ext m w = (Ok tt, w')
    ∧ wf w'
    ∧ (length (history w' (from_user_id m)) ≤ 24)%nat
    ∧ ∀ u, u ≠ from_user_id m → history w' u = history w u.
Proof.
  intros Hsp Hwf.
  destruct (handle_text_total lower cfg ext Hsp m w Hwf) as (w' & E & Hwf' & Ho).
  exists w'. split_and!; [done|done|by apply history_length|done].
Qed.

Lemma text_handler_never_raises_witness :
  wf one_turn
  ∧ ∃ w',
      handle_text lower_vi cfg_web ext_down (Message 8 (py "fetch")) one_turn = (Ok tt, w')
      ∧ history w' 7 = history one_turn 7.
Proof.
  split; [exact wf_one_turn|].
  destruct (text_handler_never_raises lower_vi cfg_web ext_down (Message 8 (py "fetch"))
              one_turn lower_vi_space wf_one_turn)
    as (w' & E & _ & _ & Ho).
  exists w'. split; [exact E|]. apply Ho. cbn. lia.
Defined.

(** X12. A text message causes at most one completion call, and the prompt
    of that call is bounded: the configured model, the system prompt first,
    at most 24 turns after it, and a budget of 700 or 900 tokens. *)
Theorem text_handler_prompts_are_bounded
    (lower : str → str) (cfg : config) (ext : services) (m : message) (w : world) :
  (∀ s, 32 ∈ lower s → 32 ∈ s) →
  wf w →
  ∃ w' new,
    handle_text lower cfg ext m w = (Ok tt, w')
    ∧ trace w' = trace w ++ new
    ∧ (length (completions new) ≤ 1)%nat
    ∧ Forall (prompt_ok cfg) (completions new).
Proof.
  intros Hsp Hwf.
  assert (Hsys : ∀ h n, (length h ≤ 24)%nat → (n = 700 ∨ n = 900)%nat →
            prompt_ok cfg (OPENAI_MODEL cfg, Turn (py "system") SYSTEM_PROMPT :: h, n)).
  { intros h n Hh Hn. split_and!; [done|done|simpl; lia|done]. }
  pose proof (history_length w (from_user_id m) Hwf) as Hlen.
  destruct (fetch_guard lower (strip (text m))) eqn:Hf.
  { destruct (handle_text_fetch lower cfg ext Hsp m w Hwf Hf)
      as (rest & w' & _ & E & _ & Htr & _).
    exists w'. eexists. split_and!; [done|exact Htr|..];
      unfold fetch_events; destruct (WEB_SCRAPE_ENABLED cfg); cbn; try lia; constructor. }
  destruct (extract_guard lower (strip (text m))) eqn:He.
  { destruct (handle_text_extract lower cfg ext m w Hwf (conj Hf He))
      as (w' & h1 & E & _ & _ & _ & -> & H).
    exists w'. destruct (create ext _ _ 700); destruct H as [Htr _];
      (eexists; split_and!; [done|exact Htr|cbn; lia|]);
      cbn [completions omap list_omap];
      (constructor; [|constructor]); apply Hsys; auto; by apply deque_push_length. }
  destruct (report_guard lower (strip (text m))) eqn:Hr.
  - destruct (handle_text_report lower cfg ext m w Hwf (conj Hf (conj He Hr)))
      as (w' & E & _ & _ & H).
    exists w'. destruct (create ext _ _ 900); destruct H as [Htr _].
    + eexists; split_and!; [done|exact Htr|..];
        unfold made_dirs; destruct (bool_decide (MEDIA_DIR cfg = []));
        cbn; try lia; (constructor; [|constructor]); apply Hsys; auto.
    + eexists; split_and!; [done|exact Htr|cbn; lia|].
      cbn [completions omap list_omap].
      (constructor; [|constructor]); apply Hsys; auto.
  - destruct (handle_text_plain lower cfg ext m w Hwf (conj Hf (conj He Hr)))
      as (w' & h1 & E & _ & _ & _ & -> & H).
    exists w'. destruct (create ext _ _ 700); destruct H as [Htr _];
      (eexists; split_and!; [done|exact Htr|cbn; lia|]);
      cbn [completions omap list_omap];
      (constructor; [|constructor]); apply Hsys; auto; by apply deque_push_length.
Qed.

Lemma text_handler_prompts_are_bounded_witness :
  wf one_turn
  ∧ ∃ w' new,
      handle_text lower_vi cfg0 ext_down report_example one_turn = (Ok tt, w')
      ∧ trace w' = trace one_turn ++ new
      ∧ (length (completions new) ≤ 1)%nat
      ∧ Forall (prompt_ok cfg0) (completions new).
Proof.
  split; [exact wf_one_turn|].
  exact (text_handler_prompts_are_bounded lower_vi cfg0 ext_down report_example one_turn
           lower_vi_space wf_one_turn).
Defined.

(** * Further properties of the renderer *)

Lemma split_at_separator (c : N) (x x' y y' : str) :
  c ∉ x → c ∉ x' → x ++ c :: y = x' ++ c :: y' → x = x' ∧ y = y'.
Proof.
  revert x'. induction x as [|a x IH]; intros x' Hx Hx' H.
  - destruct x' as [|a' x']; [by injection H|].
    injection H as <- _. by destruct Hx'; left.
  - destruct x' as [|a' x'].
    + injection H as -> _. by destruct Hx; left.
    + injection H as <- H.
      apply not_elem_of_cons in Hx as [_ Hx]. apply not_elem_of_cons in Hx' as [_ Hx'].
      by destruct (IH x' Hx Hx' H) as [-> ->].
Qed.

Lemma path_join_relative a b :
  startswith b (py "/") = false →
  path_join a b =
    a ++ (if bool_decide (a = []) || endswith a (py "/") then [] else py "/") ++ b.
Proof.
  intros Hb. unfold path_join. rewrite Hb.
  by destruct (bool_decide (a = []) || endswith a (py "/")).
Qed.

Lemma report_name_relative (x : str) :
  startswith (py "report_" ++ x) (py "/") = false.
Proof. by vm_compute. Qed.

Lemma app_endswith x s : endswith (x ++ s) s = true.
Proof. unfold endswith. rewrite reverse_app. apply app_startswith. Qed.

Lemma report_path_shape cfg ext uid :
  report_path cfg ext uid =
    MEDIA_DIR cfg
    ++ (if bool_decide (MEDIA_DIR cfg = []) || endswith (MEDIA_DIR cfg) (py "/")
        then [] else py "/")
    ++ py "report_" ++ str_of_int uid ++ py "_" ++ str_of_int (clock ext) ++ py ".pdf".
Proof. unfold report_path. apply path_join_relative, report_name_relative. Qed.

(** X13. Reports of different users, or of different seconds, never share a
    file: the path names both the user and the time. *)
Theorem report_paths_do_not_collide
    (cfg : config) (ext1 ext2 : services) (uid1 uid2 : Z) :
  uid1 ≠ uid2 ∨ clock ext1 ≠ clock ext2 →
  report_path cfg ext1 uid1 ≠ report_path cfg ext2 uid2.
Proof.
  intros Hne Heq. rewrite !report_path_shape in Heq.
  do 3 apply app_inv_head in Heq.
  assert (Hsep : py "_" = [95]) by (vm_compute; reflexivity).
  rewrite Hsep in Heq. cbn [app] in Heq.
  apply split_at_separator in Heq as [Hu Hk]; try apply str_of_int_no_underscore.
  apply app_inv_tail in Hk. apply str_of_int_inj in Hu, Hk. by destruct Hne.
Qed.

Lemma report_paths_do_not_collide_witness :
  (7 ≠ 8)%Z
  ∧ report_path cfg0 ext_down 7 ≠ report_path cfg0 ext_down 8
  ∧ report_path cfg0 ext_down 7 = py "/tmp/telegram_media/report_7_1700000000.pdf".
Proof.
  split; [lia|]. split; [|vm_compute; reflexivity].
  apply (report_paths_do_not_collide cfg0 ext_down ext_down 7 8). left. lia.
Defined.

(** X14. Two reports for one user within the same second, both of which
    can be rendered, go to the same file: the second replaces the first. *)
Theorem same_second_report_overwrites
    (cfg : config) (ext : services) (uid : Z) (t1 c1 t2 c2 : str) (w : world) :
  render_ok cfg ext uid t1 c1 = true →
  render_ok cfg ext uid t2 c2 = true →
  ∃ p w',
    (generate_pdf cfg ext uid t1 c1;; generate_pdf cfg ext uid t2 c2) w = (Ok p, w')
    ∧ p = (report_file cfg ext uid t1 c1).1
    ∧ files w' !! p = Some (report_file cfg ext uid t2 c2).2
    ∧ files w' = <[p := (report_file cfg ext uid t2 c2).2]> (files w).
Proof.
  intros H1 H2.
  assert (Hp : (report_file cfg ext uid t2 c2).1 = (report_file cfg ext uid t1 c1).1)
    by (unfold report_file; by destruct (canvas cfg)).
  exists (report_file cfg ext uid t2 c2).1. eexists. split.
  { rewrite (bind_ok _ _ _ _ _ (generate_pdf_ok cfg ext uid t1 c1 w H1)).
    rewrite (generate_pdf_ok cfg ext uid t2 c2 _ H2). reflexivity. }
  split; [exact Hp|]. cbn [files].
  split; [by rewrite lookup_insert_eq|]. by rewrite <- Hp, insert_insert_eq.
Qed.

Lemma same_second_report_overwrites_witness :
  render_ok cfg0 ext_down 7 (py "Báo cáo từ Bot") (py "một") = true
  ∧ render_ok cfg0 ext_down 7 (py "Báo cáo từ Bot") (py "hai") = true
  ∧ ∃ w',
      (generate_pdf cfg0 ext_down 7 (py "Báo cáo từ Bot") (py "một");;
       generate_pdf cfg0 ext_down 7 (py "Báo cáo từ Bot") (py "hai")) init
        = (Ok (py "/tmp/telegram_media/report_7_1700000000.pdf.txt"), w')
      ∧ files w' !! py "/tmp/telegram_media/report_7_1700000000.pdf.txt"
        = Some (TextFile (report_text cfg0 7 (py "Báo cáo từ Bot") (py "hai"))).
Proof.
  split; [vm_compute; reflexivity|]. split; [vm_compute; reflexivity|].
  destruct (same_second_report_overwrites cfg0 ext_down 7
              (py "Báo cáo từ Bot") (py "một") (py "Báo cáo từ Bot") (py "hai") init
              eq_refl eq_refl)
    as (p & w' & E & Hp & Hf & _).
  assert (Hp' := Hp). vm_compute in Hp'. subst p.
  exists w'. split.
  - etransitivity; [exact E|]. vm_compute. reflexivity.
  - etransitivity; [|exact Hf]. reflexivity.
Defined.

(** X15. [generate_pdf] never touches the store, and the only event it adds
    is the making of MEDIA_DIR.  It returns exactly when the directory can be
    made and the document is saved (without reportlab: every text written
    can be encoded), and the path it returns is then the one it wrote: a
    file under MEDIA_DIR named [.pdf] when reportlab is there and [.pdf.txt]
    when it is not.  In every other case it raises. *)
Theorem report_is_written_under_media_dir
    (cfg : config) (ext : services) (uid : Z) (title content : str) (w : world) :
  ∃ r w',
    generate_pdf cfg ext uid title content w = (r, w')
    ∧ heap w' = heap w ∧ user_context w' = user_context w
    ∧ trace w' = trace w ++ made_dirs cfg
    ∧ match r with
      | Ok p =>
          render_ok cfg ext uid title content = true
          ∧ files w' !! p = Some (report_file cfg ext uid title content).2
          ∧ startswith p (MEDIA_DIR cfg) = true
          ∧ endswith p (if canvas cfg then py ".pdf" else py ".pdf.txt") = true
      | Raise _ => render_ok cfg ext uid title content = false
      end.
Proof.
  destruct (generate_pdf_run cfg ext uid title content w) as (r & fs & E & H).
  eexists _, _. split; [exact E|]. cbn [files heap user_context trace].
  split_and!; [done|done|done|].
  destruct (render_ok cfg ext uid title content).
  2:{ by destruct H as [e ->]. }
  destruct H as [-> ->].
  split; [done|]. split; [by rewrite lookup_insert_eq|].
  unfold report_file. rewrite report_path_shape.
  destruct (canvas cfg); cbn [fst]; split_and!.
  - apply app_startswith.
  - rewrite !app_assoc. apply app_endswith.
  - rewrite <- app_assoc. apply app_startswith.
  - assert (Hs : py ".pdf.txt" = py ".pdf" ++ py ".txt") by (vm_compute; reflexivity).
    rewrite Hs, !app_assoc, <- (app_assoc _ (py ".pdf") (py ".txt")).
    apply app_endswith.
Qed.

(** * The photo and document handlers *)

Lemma mm_bind_ok {A B} (m : MM A) (f : A → MM B) mw a mw' :
  m mw = (Ok a, mw') → (m ≫= f) mw = f a mw'.
Proof. intros H. unfold mbind, MM_bind. by rewrite H. Qed.

Lemma mm_bind_raise {A B} (m : MM A) (f : A → MM B) mw e mw' :
  m mw = (Raise e, mw') → (m ≫= f) mw = (Raise e, mw').
Proof. intros H. unfold mbind, MM_bind. by rewrite H. Qed.

Lemma lift_run {A} (m : M A) w med r w' :
  m w = (r, w') → lift m (MediaWorld w med) = (r, MediaWorld w' med).
Proof. intros H. unfold lift. cbn [bot_world media]. by rewrite H. Qed.

Section MediaProofs.

Variable lower : str → str.
Variable cfg : config.
Variable ext : services.
Variable svc : media_services.

Lemma ocr_image_spec src w :
  ocr_image svc src w =
    (Ok (match image_to_string svc src with
         | Some t => strip t
         | None => []
         end), w).
Proof. unfold ocr_image, try_except. by destruct (image_to_string svc src). Qed.


End MediaProofs.




(** X18. When the photo cannot be fetched from Telegram the handler raises
    before it does anything: nothing is saved, nothing is replied and the
    store is as it was. *)
Theorem photo_download_failure_changes_nothing
    (cfg : config) (ext : services) (svc : media_services)
    (m : photo_message) (mw : media_world) (fid : str) :
  last (photo m) = Some fid →
  get_file svc fid = None
  ∨ (∃ fp, get_file svc fid = Some fp ∧ download_file svc fp = None) →
  handle_photo cfg ext svc m mw = (Raise ServiceError, mw).
Proof.
  destruct mw as [w med]. intros Hlast Hfail.
  unfold handle_photo. cbv zeta.
  assert (E0 : getlast (photo m) w = (Ok fid, w)) by (unfold getlast; by rewrite Hlast).
  rewrite (mm_bind_ok _ _ _ _ _ (lift_run _ _ med _ _ E0)).
  destruct Hfail as [Hfile|(fp & Hfile & Hdata)].
  - assert (E1 : bot_get_file svc fid w = (Raise ServiceError, w))
      by (unfold bot_get_file; by rewrite Hfile).
    by rewrite (mm_bind_raise _ _ _ _ _ (lift_run _ _ med _ _ E1)).
  - assert (E1 : bot_get_file svc fid w = (Ok fp, w))
      by (unfold bot_get_file; by rewrite Hfile).
    assert (E2 : bot_download_file svc fp w = (Raise ServiceError, w))
      by (unfold bot_download_file; by rewrite Hdata).
    rewrite (mm_bind_ok _ _ _ _ _ (lift_run _ _ med _ _ E1)).
    by rewrite (mm_bind_raise _ _ _ _ _ (lift_run _ _ med _ _ E2)).
Qed.



Lemma photo_download_failure_changes_nothing_witness :
  last (photo photo_example) = Some (py "large")
  ∧ handle_photo cfg0 ext_down svc_down photo_example (MediaWorld one_turn ∅)
    = (Raise ServiceError, MediaWorld one_turn ∅).
Proof.
  assert (Hlast : last (photo photo_example) = Some (py "large"))
    by (vm_compute; reflexivity).
  split; [exact Hlast|].
  apply (photo_download_failure_changes_nothing cfg0 ext_down svc_down photo_example
           (MediaWorld one_turn ∅) (py "large") Hlast).
  by left.
Defined.

(** X19. [ocr_image] never raises and changes nothing: it returns the
    recognised text, stripped, or the empty string when opening or reading
    the image fails. *)
Theorem ocr_image_never_raises
    (svc : media_services) (src : image_source) (w : world) :
  ∃ s,
    ocr_image svc src w = (Ok s, w)
    ∧ strip s = s
    ∧ (s = [] ∨ ∃ t, image_to_string svc src = Some t ∧ s = strip t).
Proof.
  rewrite ocr_image_spec. eexists. split; [reflexivity|].
  destruct (image_to_string svc src) as [t|].
  - split; [apply strip_idemp|]. right. by exists t.
  - split; [done|by left].
Qed.

(** ** Documents *)










